(** * testgen.py: stimulus-file generator of the packet-scheduler testbench

    A shallow embedding of
    [pkt_scheduler.srcs/sim_1/imports/Documents/sv-repo/testbench/testgen.py]
    and the properties of the three files it writes.

    The script draws numbers from Python's [random] module, renders each with
    the format spec [08x] and writes one per line to [head_info.txt],
    [buff_addr.txt] and [buff_gapn.txt].  The definitions come first:

    - [Hex]: the format spec [08x] and a reader for the lines it produces;
    - [Py]: the Python run-time the script relies on: exceptions, list
      indexing, comprehensions and loops, the [random] module (an interface
      with its documented ranges), files opened in mode ['w'] in an
      environment that may refuse an operation, [print];
    - [Testgen]: the script itself, statement by statement;
    - [Obs]: what is observed of a run: the lines and values of a file, the
      history of draws and file operations;
    - [Ideal]: the run in which nothing is refused, as a function of the
      generator;
    - [Lcg]: a concrete generator and concrete environments to run the
      script on.

    The properties follow: rendering and reading back, the statements of
    the script one by one, the outcome of a whole run ([testgen_outcome]),
    and the claims about the script. *)

From Stdlib Require Import ZArith Lia Ascii String.
From stdpp Require Import base strings list gmap.

Local Open Scope Z_scope.

(** ** The format spec [08x] *)

Module Hex.

(** The sixteen digits Python's [x] presentation type uses. *)
Definition digit (d : Z) : ascii :=
  match d with
  | 0 => "0" | 1 => "1" | 2 => "2" | 3 => "3"
  | 4 => "4" | 5 => "5" | 6 => "6" | 7 => "7"
  | 8 => "8" | 9 => "9" | 10 => "a" | 11 => "b"
  | 12 => "c" | 13 => "d" | 14 => "e" | _ => "f"
  end%char.

(** [ndigits n]: how many hexadecimal digits the magnitude [n] takes. Like
    CPython, it is computed from the bit length; zero takes one digit. *)
Definition ndigits (n : Z) : nat := S (Z.to_nat (Z.log2 n / 4)).

(** The [w] low hexadecimal digits of [n], most significant first. *)
Fixpoint fixed (w : nat) (n : Z) : string :=
  match w with
  | O => ""
  | S w' => fixed w' (n / 16) +:+ String (digit (n mod 16)) ""
  end.

(** [format(n, 'x')] for [n >= 0]. *)
Definition to_hex (n : Z) : string := fixed (ndigits n) n.

Fixpoint zeros (k : nat) : string :=
  match k with
  | O => ""
  | S k' => String "0" (zeros k')
  end.

(** [format(n, '08x')]: fill character [0], minimum width 8, lowercase
    hexadecimal. The zero fill is sign-aware: it goes between the sign and
    the digits, and the sign counts towards the width. *)
Definition format_08x (n : Z) : string :=
  let sign := if n <? 0 then "-" else "" in
  let digits := to_hex (Z.abs n) in
  sign +:+ zeros (8 - String.length sign - String.length digits) +:+ digits.

(** *** Reading a rendered value back *)

(** The value of a lowercase hexadecimal digit, from its character code:
    [0]-[9] are 48-57 and [a]-[f] are 97-102. *)
Definition digit_value (c : ascii) : option Z :=
  let code := Z.of_N (N_of_ascii c) in
  if (48 <=? code) && (code <=? 57) then Some (code - 48)
  else if (97 <=? code) && (code <=? 102) then Some (code - 87)
  else None.

(** A lowercase hexadecimal character, [[0-9a-f]]. *)
Definition is_lower_hex (c : ascii) : bool :=
  match digit_value c with Some _ => true | None => false end.

Fixpoint all_chars (p : ascii → bool) (s : string) : bool :=
  match s with
  | EmptyString => true
  | String c s' => p c && all_chars p s'
  end.

(** The pattern [[0-9a-f]{8}]. *)
Definition is_hex8 (s : string) : bool :=
  (String.length s =? 8)%nat && all_chars is_lower_hex s.

Fixpoint parse_from (acc : Z) (s : string) : option Z :=
  match s with
  | EmptyString => Some acc
  | String c s' =>
      match digit_value c with
      | Some d => parse_from (acc * 16 + d) s'
      | None => None
      end
  end.

(** The integer a line of lowercase hexadecimal digits encodes. *)
Definition parse (s : string) : option Z :=
  match s with
  | EmptyString => None
  | _ => parse_from 0 s
  end.

End Hex.

(** ** The Python run-time the script uses *)

Module Py.

(** An operation on the file system that the environment may refuse. *)
Inductive fs_op :=
| Open (path : string)
| Write (path : string) (data : string).

Inductive exn :=
| OSError (op : fs_op)   (* the environment refused [op] *)
| IndexError             (* list index out of range *)
| ValueError.            (* I/O operation on closed file *)

Inductive result (A : Type) :=
| Ok (a : A)
| Raise (e : exn).
Arguments Ok {A} a.
Arguments Raise {A} e.

(** What a run does, in order: the values the [random] module returned and
    the file and console operations. *)
Inductive event :=
| Drew (v : Z)
| Did (op : fs_op)
| Failed (op : fs_op)
| Closed (path : string)
| Printed (text : string).

(** The [random] module: a generator state threaded through the calls. Only
    the documented ranges are assumed: [getrandbits(k)] is a non-negative
    integer of [k] bits, [randint(a, b)] lies in [[a, b]], both ends
    included. *)
Class Random (G : Type) := {
  getrandbits : Z → G → Z * G;
  randint : Z → Z → G → Z * G;
  getrandbits_range k g : 0 ≤ k → 0 ≤ (getrandbits k g).1 < 2 ^ k;
  randint_range a b g : a ≤ b → a ≤ (randint a b g).1 ≤ b;
}.

(** The state a run acts on. [w_fs] maps a path to the text of the file;
    [w_open] holds the paths with an open file object; [w_trace] is the
    history of the run. Writes go straight to [w_fs], so closing a file has
    nothing left to flush, and a line feed is stored as it is written, as
    text mode does on POSIX systems. *)
Record world (G : Type) := World {
  w_rng : G;
  w_fs : gmap string string;
  w_open : gset string;
  w_stdout : string;
  w_trace : list event;
}.
Arguments World {G}.
Arguments w_rng {G}.
Arguments w_fs {G}.
Arguments w_open {G}.
Arguments w_stdout {G}.
Arguments w_trace {G}.

(** A statement: it runs in a world and either yields a value or raises. *)
Definition M (G A : Type) : Type := world G → result A * world G.

Definition line_feed : string := String "010" "".

Section Runtime.
Context {G : Type} `{Random G}.

(** The environment: given the history so far, does it refuse [op]? *)
Variable io_fails : list event → fs_op → bool.

Definition ret {A} (a : A) : M G A := λ w, (Ok a, w).

Definition bind {A B} (m : M G A) (f : A → M G B) : M G B :=
  λ w, match m w with
       | (Ok a, w') => f a w'
       | (Raise e, w') => (Raise e, w')
       end.

Definition raise {A} (e : exn) : M G A := λ w, (Raise e, w).

Definition log (ev : event) (w : world G) : world G :=
  World (w_rng w) (w_fs w) (w_open w) (w_stdout w) (w_trace w ++ [ev]).

(** A call into [random]: advance the generator, record the value. *)
Definition draw (f : G → Z * G) : M G Z :=
  λ w, let '(v, g) := f (w_rng w) in
       (Ok v, World g (w_fs w) (w_open w) (w_stdout w) (w_trace w ++ [Drew v])).

Definition random_getrandbits (k : Z) : M G Z := draw (getrandbits k).
Definition random_randint (a b : Z) : M G Z := draw (randint a b).

(** [l[i]]: a negative index counts from the end; an index outside
    [[-len(l), len(l))] raises [IndexError]. *)
Definition getitem (l : list Z) (i : Z) : M G Z :=
  let n := Z.of_nat (length l) in
  let j := if i <? 0 then i + n else i in
  if (0 <=? j) && (j <? n)
  then match l !! Z.to_nat j with
       | Some x => ret x
       | None => raise IndexError
       end
  else raise IndexError.

(** [[e for _ in range(n)]]: evaluate [e] [n] times, in order. *)
Fixpoint list_comp {A} (n : nat) (e : M G A) : M G (list A) :=
  match n with
  | O => ret []
  | S n' => bind e (λ x, bind (list_comp n' e) (λ xs, ret (x :: xs)))
  end.

(** [for x in xs: body]. *)
Fixpoint for_ {A} (xs : list A) (body : A → M G unit) : M G unit :=
  match xs with
  | [] => ret ()
  | x :: xs' => bind (body x) (λ _, for_ xs' body)
  end.

(** [open(path, 'w')]: create the file or truncate it to empty. The file
    object is identified by its path. *)
Definition open_w (path : string) : M G string :=
  λ w, if io_fails (w_trace w) (Open path)
       then (Raise (OSError (Open path)), log (Failed (Open path)) w)
       else (Ok path,
             World (w_rng w) (<[path := ""]> (w_fs w)) ({[path]} ∪ w_open w)
                   (w_stdout w) (w_trace w ++ [Did (Open path)])).

(** [file.write(data)]: append [data]; the result is the number of
    characters written. *)
Definition write (file : string) (data : string) : M G Z :=
  λ w, if decide (file ∈ w_open w)
       then if io_fails (w_trace w) (Write file data)
            then (Raise (OSError (Write file data)),
                  log (Failed (Write file data)) w)
            else (Ok (Z.of_nat (String.length data)),
                  World (w_rng w)
                        (<[file := default "" (w_fs w !! file) +:+ data]> (w_fs w))
                        (w_open w) (w_stdout w)
                        (w_trace w ++ [Did (Write file data)]))
       else (Raise ValueError, w).

Definition close (file : string) (w : world G) : world G :=
  World (w_rng w) (w_fs w) (w_open w ∖ {[file]}) (w_stdout w)
        (w_trace w ++ [Closed file]).

(** [with open(path, 'w') as file: body]: the file is closed when the body
    is left, normally or by an exception, and an exception of the body goes
    on to the caller. *)
Definition with_open {A} (path : string) (body : string → M G A) : M G A :=
  bind (open_w path) (λ file w,
    let '(r, w') := body file w in (r, close file w')).

(** [print(text)]. *)
Definition print (text : string) : M G unit :=
  λ w, (Ok (), World (w_rng w) (w_fs w) (w_open w)
                     (w_stdout w +:+ text +:+ line_feed)
                     (w_trace w ++ [Printed text])).

End Runtime.

End Py.

Notation "'let!' x ':=' m 'in' k" := (Py.bind m (λ x, k))
  (at level 10, x name, m at level 100, k at level 200,
   format "'[v' 'let!'  x  ':='  m  'in' '/' k ']'").
Notation "m ';;;' k" := (Py.bind m (λ _, k))
  (at level 100, k at level 200, right associativity,
   format "'[v' m ';;;' '/' k ']'").

(** ** The script *)

Module Testgen.
Import Py.

Section Script.
Context {G : Type} `{Random G}.
Variable io_fails : list event → fs_op → bool.

(** The f-string [f"{number:08x}\n"]. *)
Definition fstring (number : Z) : string :=
  Hex.format_08x number +:+ line_feed.

(** The message of the final [print]. *)
Definition message : string :=
  "随机数已生成并以16进制格式写入到random_numbers_hex.txt文件中。".

Definition testgen : M G unit :=
  let! random_flow := list_comp 64 (random_getrandbits 32) in
  let! random_numbers :=
    list_comp 2048 (let! i := random_randint 0 63 in getitem random_flow i) in
  with_open io_fails "head_info.txt" (λ file,
    for_ random_numbers (λ number,
      write io_fails file (fstring number);;; ret ()));;;
  let! random_flow := list_comp 2048 (random_getrandbits 32) in
  with_open io_fails "buff_addr.txt" (λ file,
    for_ random_flow (λ number,
      write io_fails file (fstring number);;; ret ()));;;
  let! random_flow :=
    list_comp 2048 (let! v := random_getrandbits 32 in ret (v mod 32)) in
  with_open io_fails "buff_gapn.txt" (λ file,
    for_ random_flow (λ number,
      write io_fails file (fstring number);;; ret ()));;;
  print message.

End Script.

End Testgen.

(** ** What is observed of a run *)

Module Obs.
Import Py.

(** The text of a file that holds [values], one rendered value per line. *)
Definition render (values : list Z) : string :=
  foldr (λ v rest, Testgen.fstring v +:+ rest) "" values.

Definition is_line_feed (c : ascii) : bool :=
  if decide (c = "010"%char) then true else false.

(** Split a text into its lines, each without its line feed. The text must
    end where a line ends: text after the last line feed has no line. *)
Fixpoint lines_from (cur : string) (s : string) : option (list string) :=
  match s with
  | EmptyString => match cur with EmptyString => Some [] | _ => None end
  | String c s' =>
      if is_line_feed c
      then match lines_from "" s' with
           | Some ls => Some (cur :: ls)
           | None => None
           end
      else lines_from (cur +:+ String c "") s'
  end.

Definition lines (s : string) : option (list string) := lines_from "" s.

(** The integers that the lines of a text encode. *)
Definition values (s : string) : option (list Z) :=
  match lines s with
  | Some ls => mapM Hex.parse ls
  | None => None
  end.

(** The part of the history that a run from [w] to [w'] added. *)
Definition since {G} (w w' : world G) : list event :=
  drop (length (w_trace w)) (w_trace w').

(** The values the [random] module returned, in order. *)
Definition drawn (t : list event) : list Z :=
  omap (λ ev, match ev with Drew v => Some v | _ => None end) t.

(** The file operations of a history, in order. *)
Definition is_file_event (ev : event) : bool :=
  match ev with
  | Did _ | Failed _ | Closed _ => true
  | Drew _ | Printed _ => false
  end.

Definition file_events (t : list event) : list event :=
  filter (λ ev, is_file_event ev = true) t.

(** The paths a history opened or tried to open, wrote or tried to write. *)
Definition op_path (op : fs_op) : string :=
  match op with Open p => p | Write p _ => p end.

Definition touched (t : list event) : list string :=
  omap (λ ev, match ev with
              | Did op | Failed op => Some (op_path op)
              | _ => None
              end) t.

(** The paths a history closed. *)
Definition closed (t : list event) : list string :=
  omap (λ ev, match ev with Closed p => Some p | _ => None end) t.

(** A history in which a file, once closed, is not opened or written
    again. *)
Fixpoint settled (t : list event) : Prop :=
  match t with
  | [] => True
  | Closed p :: t' => (p ∉ touched t') ∧ settled t'
  | _ :: t' => settled t'
  end.

(** The effect of one event, and of a history, on the file system. *)
Definition apply_event (fs : gmap string string) (ev : event) : gmap string string :=
  match ev with
  | Did (Open p) => <[p := ""]> fs
  | Did (Write p data) => <[p := default "" (fs !! p) +:+ data]> fs
  | _ => fs
  end.

Definition replay (t : list event) (fs : gmap string string) : gmap string string :=
  foldl apply_event fs t.

(** One file written from start to end: opened, one write per value,
    closed. *)
Definition session (path : string) (values : list Z) : list event :=
  Did (Open path) ::
  map (λ v, Did (Write path (Testgen.fstring v))) values ++ [Closed path].

(** The three files of the script. *)
Definition output_files : list string :=
  ["head_info.txt"; "buff_addr.txt"; "buff_gapn.txt"].

Definition is_failed (ev : event) : bool :=
  match ev with Failed _ => true | _ => false end.

Definition is_closed (ev : event) : bool :=
  match ev with Closed _ => true | _ => false end.

(** A run from [w] to [w'] that stops at the refused operation [op]: up to
    there nothing was refused, [op] was refused by the environment, and
    after it the run only closed files. It touched paths of [ps] only and
    printed nothing. *)
Definition stops {G} (io_fails : list event → fs_op → bool)
    (w w' : world G) (op : fs_op) (ps : list string) : Prop :=
  ∃ pre post,
    w_trace w' = w_trace w ++ pre ++ Failed op :: post ∧
    Forall (λ ev, is_failed ev = false) pre ∧
    Forall (λ ev, is_closed ev = true) post ∧
    io_fails (w_trace w ++ pre) op = true ∧
    Forall (λ p, p ∈ ps) (touched (pre ++ [Failed op])) ∧
    w_fs w' = replay pre (w_fs w) ∧
    w_stdout w' = w_stdout w.

End Obs.

(** ** The run without a refused operation, as a function of the generator *)

Module Ideal.
Import Py.

Section Ideal.
Context {G : Type} `{Random G}.

(** [n] successive calls of [f], threading the generator. *)
Fixpoint sample (n : nat) (f : G → Z * G) (g : G) : list Z * G :=
  match n with
  | O => ([], g)
  | S n' =>
      let '(v, g1) := f g in
      let '(vs, g2) := sample n' f g1 in
      (v :: vs, g2)
  end.

(** [l[i]] for an index in range. *)
Definition pick (l : list Z) (i : Z) : Z := default 0 (l !! Z.to_nat i).

Definition flow_draw (g : G) := sample 64 (getrandbits 32) g.
Definition index_draw (g : G) := sample 2048 (randint 0 63) (flow_draw g).2.
Definition addr_draw (g : G) := sample 2048 (getrandbits 32) (index_draw g).2.
Definition gapn_draw (g : G) := sample 2048 (getrandbits 32) (addr_draw g).2.

(** The pool of 64 values, and the values of the three files. *)
Definition pool (g : G) : list Z := (flow_draw g).1.
Definition indices (g : G) : list Z := (index_draw g).1.
Definition head_info (g : G) : list Z := map (pick (pool g)) (indices g).
Definition buff_addr (g : G) : list Z := (addr_draw g).1.
Definition gapn_raw (g : G) : list Z := (gapn_draw g).1.
Definition buff_gapn (g : G) : list Z := map (λ v, v mod 32) (gapn_raw g).

Definition history (g : G) : list event :=
  map Drew (pool g) ++ map Drew (indices g) ++
  Obs.session "head_info.txt" (head_info g) ++
  map Drew (buff_addr g) ++
  Obs.session "buff_addr.txt" (buff_addr g) ++
  map Drew (gapn_raw g) ++
  Obs.session "buff_gapn.txt" (buff_gapn g) ++
  [Printed Testgen.message].

Definition final (w : world G) : world G :=
  let g := w_rng w in
  World (gapn_draw g).2
        (<["buff_gapn.txt" := Obs.render (buff_gapn g)]>
           (<["buff_addr.txt" := Obs.render (buff_addr g)]>
              (<["head_info.txt" := Obs.render (head_info g)]> (w_fs w))))
        (w_open w ∖ {["head_info.txt"]} ∖ {["buff_addr.txt"]} ∖ {["buff_gapn.txt"]})
        (w_stdout w +:+ Testgen.message +:+ line_feed)
        (w_trace w ++ history g).

End Ideal.

(** The text of each output file as a function of the numbers a full run
    drew, in the order it drew them. *)
Definition file_text (ds : list Z) (path : string) : option string :=
  let random_flow := take 64 ds in
  let indices := take 2048 (drop 64 ds) in
  let addrs := take 2048 (drop 2048 (drop 64 ds)) in
  let gaps := drop 2048 (drop 2048 (drop 64 ds)) in
  if decide (path = "head_info.txt")
  then Some (Obs.render (map (pick random_flow) indices))
  else if decide (path = "buff_addr.txt")
  then Some (Obs.render addrs)
  else if decide (path = "buff_gapn.txt")
  then Some (Obs.render (map (λ v, v mod 32) gaps))
  else None.

End Ideal.

(** ** A run that a refused operation stops *)

Module Partial.
Import Py Ideal.

(** The three [with] blocks of the script, in the order of the source. *)
Inductive block := Head | Addr | Gapn.

Definition block_path (b : block) : string :=
  match b with
  | Head => "head_info.txt"
  | Addr => "buff_addr.txt"
  | Gapn => "buff_gapn.txt"
  end.


(** The operation at which a run stops: the [open] of a block, or the
    [write] of entry [k] of its list. *)
Inductive cut :=
| AtOpen (b : block)
| AtWrite (b : block) (k : nat).

Definition cut_block (c : cut) : block :=
  match c with AtOpen b => b | AtWrite b _ => b end.

(** What the [with] statement does after the refusal: nothing if the file
    was not opened, else it closes the file. *)
Definition wind_up (c : cut) : list event :=
  match c with
  | AtOpen _ => []
  | AtWrite b _ => [Closed (block_path b)]
  end.

(** The paths a history opened. *)
Definition opened (t : list event) : list string :=
  omap (λ ev, match ev with Did (Open p) => Some p | _ => None end) t.

Section Partial.
Context {G : Type} `{Random G}.

(** The list that a block writes. *)
Definition block_values (g : G) (b : block) : list Z :=
  match b with
  | Head => head_info g
  | Addr => buff_addr g
  | Gapn => buff_gapn g
  end.

(** The history of a run when it reaches the [with] statement of a
    block. *)
Definition lead (g : G) (b : block) : list event :=
  let head := map Drew (pool g) ++ map Drew (indices g) in
  let addr :=
    head ++ Obs.session "head_info.txt" (head_info g) ++
    map Drew (buff_addr g) in
  let gapn :=
    addr ++ Obs.session "buff_addr.txt" (buff_addr g) ++
    map Drew (gapn_raw g) in
  match b with Head => head | Addr => addr | Gapn => gapn end.

(** The history of a run when it reaches the operation of a cut. *)
Definition upto (g : G) (c : cut) : list event :=
  match c with
  | AtOpen b => lead g b
  | AtWrite b k =>
      lead g b ++
      Did (Open (block_path b)) ::
      map (λ v, Did (Write (block_path b) (Testgen.fstring v)))
          (take k (block_values g b))
  end.

(** The operation of a cut. *)
Definition cut_op (g : G) (c : cut) : fs_op :=
  match c with
  | AtOpen b => Open (block_path b)
  | AtWrite b k =>
      Write (block_path b)
            (Testgen.fstring (default 0 (block_values g b !! k)))
  end.

(** A cut is within the script if its entry is one of the list. *)
Definition within (g : G) (c : cut) : Prop :=
  match c with
  | AtOpen _ => True
  | AtWrite b k => (k < length (block_values g b))%nat
  end.

End Partial.

End Partial.

(** ** A concrete generator

    A linear congruential generator with Knuth's MMIX constants, which
    meets the ranges that [Py.Random] asks for. *)

Module Lcg.

Definition next (g : Z) : Z :=
  (g * 6364136223846793005 + 1442695040888963407) mod 2 ^ 64.

Definition bits (k : Z) (g : Z) : Z * Z :=
  ((next g / 2 ^ 16) mod 2 ^ k, next g).

Definition between (a b : Z) (g : Z) : Z * Z :=
  (a + (next g / 2 ^ 16) mod (b - a + 1), next g).

Lemma bits_range k g : 0 ≤ k → 0 ≤ (bits k g).1 < 2 ^ k.
Proof. intros Hk. apply Z.mod_pos_bound. by apply Z.pow_pos_nonneg. Qed.

Lemma between_range a b g : a ≤ b → a ≤ (between a b g).1 ≤ b.
Proof.
  intros Hab. unfold between. simpl.
  pose proof (Z.mod_pos_bound (next g / 2 ^ 16) (b - a + 1)). lia.
Qed.

#[global] Instance random : Py.Random Z :=
  {| Py.getrandbits := bits;
     Py.randint := between;
     Py.getrandbits_range := bits_range;
     Py.randint_range := between_range |}.

(** The environment that refuses nothing, and a world to start from: no
    files, nothing printed. *)
Definition never_fails : list Py.event → Py.fs_op → bool := λ _ _, false.

Definition start (seed : Z) : Py.world Z := Py.World seed ∅ ∅ "" [].

(** A second setting: [head_info.txt] is there from an earlier run, and
    the environment refuses every operation on [random_numbers_hex.txt]. *)
Definition picky : list Py.event → Py.fs_op → bool :=
  λ _ op, bool_decide (Obs.op_path op = "random_numbers_hex.txt").

Definition rerun (seed : Z) : Py.world Z :=
  Py.World seed {["head_info.txt" := "stale"]} ∅ "" [].

(** A third one: the environment refuses every [write]. *)
Definition read_only : list Py.event → Py.fs_op → bool :=
  λ _ op, match op with Py.Write _ _ => true | Py.Open _ => false end.

End Lcg.

(** * Properties *)

(** ** Rendering *)

Example format_08x_0 : Hex.format_08x 0 = "00000000".
Proof. reflexivity. Qed.
Example format_08x_31 : Hex.format_08x 31 = "0000001f".
Proof. reflexivity. Qed.
Example format_08x_max : Hex.format_08x 4294967295 = "ffffffff".
Proof. reflexivity. Qed.
Example format_08x_wide : Hex.format_08x 4294967296 = "100000000".
Proof. reflexivity. Qed.
Example format_08x_neg : Hex.format_08x (-1) = "-0000001".
Proof. reflexivity. Qed.
Example format_08x_deadbeef : Hex.format_08x 3735928559 = "deadbeef".
Proof. reflexivity. Qed.

Example is_hex8_yes : Hex.is_hex8 "00c0ffee" = true.
Proof. reflexivity. Qed.
Example is_hex8_upper : Hex.is_hex8 "00C0FFEE" = false.
Proof. reflexivity. Qed.
Example is_hex8_wide : Hex.is_hex8 "100000000" = false.
Proof. reflexivity. Qed.
Example parse_deadbeef : Hex.parse "deadbeef" = Some 3735928559.
Proof. reflexivity. Qed.
Example parse_signed : Hex.parse "-0000001" = None.
Proof. reflexivity. Qed.

Example lines_two :
  Obs.lines ("0000001f" +:+ Py.line_feed +:+ "00000003" +:+ Py.line_feed)
  = Some ["0000001f"; "00000003"].
Proof. reflexivity. Qed.
Example lines_unfinished :
  Obs.lines ("0000001f" +:+ Py.line_feed +:+ "0000") = None.
Proof. reflexivity. Qed.
Example render_two :
  Obs.render [31; 3]
  = "0000001f" +:+ Py.line_feed +:+ "00000003" +:+ Py.line_feed.
Proof. reflexivity. Qed.

(** ** Small runs of the run-time *)

Example getitem_last :
  Py.getitem [10; 20; 30] (-1) (Lcg.start 0) = (Py.Ok 30, Lcg.start 0).
Proof. reflexivity. Qed.
Example getitem_out_of_range :
  Py.getitem [10; 20; 30] 3 (Lcg.start 0)
  = (Py.Raise Py.IndexError, Lcg.start 0).
Proof. reflexivity. Qed.

Example list_comp_three :
  (Py.list_comp 3 (Py.random_randint 0 63) (Lcg.start 0)).1
  = Py.Ok [39; 58; 50].
Proof. vm_compute. reflexivity. Qed.

Example with_open_writes :
  let run :=
    Py.with_open Lcg.never_fails "f.txt" (λ file,
      Py.for_ [1; 2] (λ number,
        Py.write Lcg.never_fails file (Testgen.fstring number);;; Py.ret ()))
      (Lcg.rerun 0) in
  run.1 = Py.Ok () ∧
  Py.w_fs run.2 !! "f.txt" = Some (Obs.render [1; 2]) ∧
  Py.w_fs run.2 !! "head_info.txt" = Some "stale" ∧
  Py.w_open run.2 = ∅ ∧
  Py.w_trace run.2 = Obs.session "f.txt" [1; 2].
Proof. vm_compute. done. Qed.

Example with_open_refused_write :
  let run :=
    Py.with_open Lcg.read_only "f.txt" (λ file,
      Py.for_ [1; 2] (λ number,
        Py.write Lcg.read_only file (Testgen.fstring number);;; Py.ret ()))
      (Lcg.start 0) in
  run.1 = Py.Raise (Py.OSError (Py.Write "f.txt" (Testgen.fstring 1))) ∧
  Py.w_fs run.2 !! "f.txt" = Some "" ∧
  Py.w_trace run.2 =
    [Py.Did (Py.Open "f.txt");
     Py.Failed (Py.Write "f.txt" (Testgen.fstring 1));
     Py.Closed "f.txt"].
Proof. vm_compute. done. Qed.

(** ** Strings *)

Section StringFacts.

Lemma string_app_cons c (s1 s2 : string) :
  String c s1 +:+ s2 = String c (s1 +:+ s2).
Proof. reflexivity. Qed.

Lemma string_app_nil_l (s : string) : "" +:+ s = s.
Proof. reflexivity. Qed.

Lemma string_app_nil_r (s : string) : s +:+ "" = s.
Proof.
  induction s as [|c s IH]; [done |].
  by rewrite string_app_cons, IH.
Qed.

Lemma string_app_assoc (s1 s2 s3 : string) :
  (s1 +:+ s2) +:+ s3 = s1 +:+ (s2 +:+ s3).
Proof.
  induction s1 as [|c s1 IH]; [done |].
  by rewrite !string_app_cons, IH.
Qed.

Lemma string_length_app (s1 s2 : string) :
  String.length (s1 +:+ s2) = (String.length s1 + String.length s2)%nat.
Proof.
  induction s1 as [|c s1 IH]; [done |].
  rewrite string_app_cons. simpl. by rewrite IH.
Qed.

Lemma all_chars_app p (s1 s2 : string) :
  Hex.all_chars p (s1 +:+ s2) = Hex.all_chars p s1 && Hex.all_chars p s2.
Proof.
  induction s1 as [|c s1 IH]; [done |].
  rewrite string_app_cons. simpl. by rewrite IH, andb_assoc.
Qed.

End StringFacts.

Module HexFacts.
Import Hex.

Lemma digit_value_digit d : 0 ≤ d < 16 → digit_value (digit d) = Some d.
Proof.
  intros Hd.
  assert (Hcases : d = 0 ∨ d = 1 ∨ d = 2 ∨ d = 3 ∨ d = 4 ∨ d = 5 ∨ d = 6 ∨
                   d = 7 ∨ d = 8 ∨ d = 9 ∨ d = 10 ∨ d = 11 ∨ d = 12 ∨
                   d = 13 ∨ d = 14 ∨ d = 15) by lia.
  repeat (destruct Hcases as [-> | Hcases]; [reflexivity |]).
  by subst.
Qed.

Lemma digit_lower_hex d : 0 ≤ d < 16 → is_lower_hex (digit d) = true.
Proof. intros Hd. unfold is_lower_hex. by rewrite digit_value_digit. Qed.

Lemma digit_not_line_feed d : Obs.is_line_feed (digit d) = false.
Proof.
  destruct d as [|p|p]; try reflexivity.
  do 4 (destruct p as [p|p|]; try reflexivity).
Qed.

Lemma length_fixed w n : String.length (fixed w n) = w.
Proof.
  revert n. induction w as [|w IH]; intros n; simpl; [done |].
  rewrite string_length_app, IH. simpl. lia.
Qed.

Lemma length_zeros k : String.length (zeros k) = k.
Proof. induction k as [|k IH]; simpl; [done | by rewrite IH]. Qed.

Lemma ndigits_le_8 n : 0 ≤ n < 2 ^ 32 → (ndigits n ≤ 8)%nat.
Proof.
  intros [Hlo Hhi]. unfold ndigits.
  assert (Z.log2 n < 32).
  { destruct (decide (n = 0)) as [-> | Hne]; [done |].
    apply Z.log2_lt_pow2; lia. }
  assert (0 ≤ Z.log2 n) by apply Z.log2_nonneg.
  assert (Z.log2 n / 4 < 8) by (apply Z.div_lt_upper_bound; lia).
  assert (0 ≤ Z.log2 n / 4) by (apply Z.div_pos; lia).
  clear Hhi. lia.
Qed.

Lemma lt_pow16_ndigits n : 0 ≤ n → n < 16 ^ Z.of_nat (ndigits n).
Proof.
  intros Hn. unfold ndigits.
  assert (0 ≤ Z.log2 n) by apply Z.log2_nonneg.
  assert (0 ≤ Z.log2 n / 4) by (apply Z.div_pos; lia).
  rewrite Nat2Z.inj_succ, Z2Nat.id by done.
  change 16 with (2 ^ 4). rewrite <- Z.pow_mul_r by lia.
  destruct (decide (n = 0)) as [-> | Hne].
  { apply Z.pow_pos_nonneg; lia. }
  eapply Z.lt_le_trans; [apply Z.log2_spec; lia |].
  apply Z.pow_le_mono_r; [lia |].
  pose proof (Z.mul_div_le (Z.log2 n) 4).
  pose proof (Z.mod_pos_bound (Z.log2 n) 4).
  pose proof (Z.div_mod (Z.log2 n) 4). lia.
Qed.

Lemma format_08x_nonneg n :
  0 ≤ n →
  format_08x n = zeros (8 - ndigits n) +:+ fixed (ndigits n) n.
Proof.
  intros Hn. unfold format_08x, to_hex.
  replace (n <? 0) with false by (symmetry; apply Z.ltb_ge; lia).
  rewrite Z.abs_eq by done. rewrite length_fixed. simpl String.length.
  by rewrite Nat.sub_0_r.
Qed.

(** A value of 32 bits is rendered in exactly eight characters. *)
Lemma length_format_08x n :
  0 ≤ n < 2 ^ 32 → String.length (format_08x n) = 8%nat.
Proof.
  intros Hn. rewrite format_08x_nonneg by lia.
  rewrite string_length_app, length_zeros, length_fixed.
  pose proof (ndigits_le_8 n Hn). lia.
Qed.

Lemma fixed_lower_hex w n : all_chars is_lower_hex (fixed w n) = true.
Proof.
  revert n. induction w as [|w IH]; intros n; [done |].
  simpl. rewrite all_chars_app, IH. simpl.
  rewrite digit_lower_hex; [done |]. apply Z.mod_pos_bound. lia.
Qed.

Lemma zeros_lower_hex k : all_chars is_lower_hex (zeros k) = true.
Proof. induction k as [|k IH]; [done |]. simpl. by rewrite IH. Qed.

Lemma format_08x_lower_hex n :
  0 ≤ n → all_chars is_lower_hex (format_08x n) = true.
Proof.
  intros Hn. rewrite format_08x_nonneg by done.
  by rewrite all_chars_app, zeros_lower_hex, fixed_lower_hex.
Qed.

Lemma format_08x_hex8 n : 0 ≤ n < 2 ^ 32 → is_hex8 (format_08x n) = true.
Proof.
  intros Hn. unfold is_hex8.
  rewrite length_format_08x by done.
  rewrite format_08x_lower_hex by lia. done.
Qed.

(** No rendering holds a line feed, whatever the number. *)
Lemma format_08x_no_line_feed n :
  all_chars (λ c, negb (Obs.is_line_feed c)) (format_08x n) = true.
Proof.
  assert (Hfixed : ∀ w m,
    all_chars (λ c, negb (Obs.is_line_feed c)) (fixed w m) = true).
  { induction w as [|w IH]; intros m; [done |].
    simpl. rewrite all_chars_app, IH. simpl.
    by rewrite digit_not_line_feed. }
  assert (Hzeros : ∀ k,
    all_chars (λ c, negb (Obs.is_line_feed c)) (zeros k) = true).
  { induction k as [|k IH]; [done |]. simpl. by rewrite IH. }
  unfold format_08x, to_hex.
  rewrite !all_chars_app, Hzeros, Hfixed.
  by destruct (n <? 0).
Qed.

Lemma parse_from_app acc (s1 s2 : string) :
  parse_from acc (s1 +:+ s2) =
  match parse_from acc s1 with
  | Some a => parse_from a s2
  | None => None
  end.
Proof.
  revert acc. induction s1 as [|c s1 IH]; intros acc; [done |].
  rewrite string_app_cons. simpl.
  destruct (digit_value c); [apply IH | done].
Qed.

Lemma parse_from_fixed w n acc :
  0 ≤ n →
  parse_from acc (fixed w n) = Some (acc * 16 ^ Z.of_nat w + n mod 16 ^ Z.of_nat w).
Proof.
  revert n acc. induction w as [|w IH]; intros n acc Hn.
  { simpl. f_equal. rewrite Z.mod_1_r. lia. }
  simpl fixed. rewrite parse_from_app, IH by (apply Z.div_pos; lia).
  simpl parse_from.
  rewrite digit_value_digit by (apply Z.mod_pos_bound; lia).
  f_equal. rewrite Nat2Z.inj_succ, Z.pow_succ_r by lia.
  rewrite (Z.rem_mul_r n 16 (16 ^ Z.of_nat w)) by lia. lia.
Qed.

Lemma parse_from_zeros k (s : string) :
  parse_from 0 (zeros k +:+ s) = parse_from 0 s.
Proof. induction k as [|k IH]; [done |]. simpl zeros. by rewrite string_app_cons. Qed.

(** Reading a rendered non-negative number gives the number back. *)
Lemma parse_format_08x n : 0 ≤ n → parse (format_08x n) = Some n.
Proof.
  intros Hn.
  assert (Hfrom : parse_from 0 (format_08x n) = Some n).
  { rewrite format_08x_nonneg, parse_from_zeros, parse_from_fixed by done.
    f_equal. rewrite Z.mod_small; [lia |].
    split; [done | by apply lt_pow16_ndigits]. }
  assert (Hlen : (1 ≤ String.length (format_08x n))%nat).
  { rewrite format_08x_nonneg by done.
    rewrite string_length_app, length_fixed. unfold ndigits. lia. }
  unfold parse. destruct (format_08x n); [simpl in Hlen; lia | exact Hfrom].
Qed.

End HexFacts.

(** ** Lines *)

Module LineFacts.
Import Obs.

Lemma lines_from_line cur (t rest : string) :
  Hex.all_chars (λ c, negb (is_line_feed c)) t = true →
  lines_from cur (t +:+ Py.line_feed +:+ rest) =
  match lines_from "" rest with
  | Some ls => Some ((cur +:+ t) :: ls)
  | None => None
  end.
Proof.
  revert cur. induction t as [|c t IH]; intros cur Ht.
  { rewrite string_app_nil_l, string_app_nil_r. reflexivity. }
  simpl in Ht. apply andb_true_iff in Ht as [Hc Ht].
  rewrite string_app_cons. simpl.
  destruct (is_line_feed c); [done |].
  rewrite IH by done.
  by rewrite string_app_assoc.
Qed.

(** The lines of a rendered file are the renderings of its values. *)
Lemma lines_render values :
  lines (render values) = Some (map Hex.format_08x values).
Proof.
  unfold lines. induction values as [|v values IH]; [done |].
  simpl render. unfold Testgen.fstring.
  rewrite string_app_assoc, lines_from_line by apply HexFacts.format_08x_no_line_feed.
  by rewrite IH.
Qed.

End LineFacts.

(** ** Histories *)

Section HistoryFacts.
Import Py Ideal.

(** In a list with one marked element, the element splits the list in one
    way only. *)
Lemma split_at_unique {A} (P : A → Prop) (l1 l2 k1 k2 : list A) x y :
  l1 ++ x :: l2 = k1 ++ y :: k2 →
  P x → P y → Forall (λ a, ¬ P a) k1 → Forall (λ a, ¬ P a) k2 →
  l1 = k1 ∧ x = y ∧ l2 = k2.
Proof.
  revert k1. induction l1 as [|a l1 IH]; intros k1 Heq Hx Hy Hk1 Hk2.
  - destruct k1 as [|b k1]; simpl in Heq.
    + by injection Heq as -> ->.
    + injection Heq as -> _. by apply Forall_cons in Hk1 as [? _].
  - destruct k1 as [|b k1]; simpl in Heq.
    + injection Heq as -> Heq.
      assert (Hin : x ∈ k2) by (rewrite <- Heq, elem_of_app, elem_of_cons; tauto).
      by destruct (proj1 (Forall_forall _ _) Hk2 x Hin).
    + injection Heq as -> Heq. apply Forall_cons in Hk1 as [_ Hk1].
      destruct (IH k1 Heq Hx Hy Hk1 Hk2) as (-> & -> & ->). done.
Qed.

Lemma replay_app t1 t2 fs :
  Obs.replay (t1 ++ t2) fs = Obs.replay t2 (Obs.replay t1 fs).
Proof. unfold Obs.replay. apply foldl_app. Qed.

Lemma touched_app t1 t2 :
  Obs.touched (t1 ++ t2) = Obs.touched t1 ++ Obs.touched t2.
Proof. unfold Obs.touched. apply omap_app. Qed.

Lemma replay_writes file xs (fs : gmap string string) old :
  fs !! file = Some old →
  Obs.replay (map (λ v, Did (Write file (Testgen.fstring v))) xs) fs =
  <[file := old +:+ Obs.render xs]> fs.
Proof.
  revert fs old. induction xs as [|x xs IH]; intros fs old Hfs.
  { simpl. by rewrite string_app_nil_r, insert_id. }
  simpl.
  rewrite (IH _ (old +:+ Testgen.fstring x))
    by (rewrite Hfs; apply lookup_insert_eq).
  by rewrite insert_insert_eq, string_app_assoc.
Qed.

Lemma replay_session path xs (fs : gmap string string) :
  Obs.replay (Obs.session path xs) fs = <[path := Obs.render xs]> fs.
Proof.
  unfold Obs.session. change (Obs.replay (?ev :: ?t) fs)
    with (Obs.replay t (Obs.apply_event fs ev)).
  rewrite replay_app. simpl Obs.apply_event.
  rewrite (replay_writes _ _ _ "") by apply lookup_insert_eq.
  by rewrite insert_insert_eq.
Qed.

Lemma replay_drawn vs (fs : gmap string string) :
  Obs.replay (map Drew vs) fs = fs.
Proof. induction vs as [|v vs IH]; [done | exact IH]. Qed.

Lemma touched_drawn vs : Obs.touched (map Drew vs) = [].
Proof. induction vs as [|v vs IH]; [done | exact IH]. Qed.

Lemma touched_session path xs :
  Forall (λ p, p = path) (Obs.touched (Obs.session path xs)).
Proof.
  unfold Obs.session. simpl. constructor; [done |].
  induction xs as [|x xs IH]; simpl; [constructor | by constructor].
Qed.

Lemma touched_session_eq path xs :
  Obs.touched (Obs.session path xs) = replicate (S (length xs)) path.
Proof.
  unfold Obs.session. simpl. f_equal. rewrite touched_app. simpl.
  rewrite app_nil_r. induction xs as [|x xs IH]; [done |].
  simpl. by rewrite IH.
Qed.

Lemma touched_only_closed post :
  Forall (λ ev, Obs.is_closed ev = true) post → Obs.touched post = [].
Proof.
  induction 1 as [|ev post Hev _ IH]; [done |].
  by destruct ev.
Qed.

Lemma not_failed_drawn vs :
  Forall (λ ev, Obs.is_failed ev = false) (map Drew vs).
Proof. induction vs; by constructor. Qed.

Lemma not_failed_session path xs :
  Forall (λ ev, Obs.is_failed ev = false) (Obs.session path xs).
Proof.
  unfold Obs.session. constructor; [done |].
  apply Forall_app. split; [| by repeat constructor].
  induction xs; by constructor.
Qed.

Lemma drawn_app t1 t2 : Obs.drawn (t1 ++ t2) = Obs.drawn t1 ++ Obs.drawn t2.
Proof. unfold Obs.drawn. apply omap_app. Qed.

Lemma drawn_drew vs : Obs.drawn (map Drew vs) = vs.
Proof. induction vs as [|v vs IH]; [done |]. simpl. by rewrite IH. Qed.

Lemma drawn_session path xs : Obs.drawn (Obs.session path xs) = [].
Proof.
  unfold Obs.session. simpl. rewrite drawn_app. simpl.
  rewrite app_nil_r. induction xs as [|x xs IH]; [done | exact IH].
Qed.

Lemma closed_app t1 t2 : Obs.closed (t1 ++ t2) = Obs.closed t1 ++ Obs.closed t2.
Proof. unfold Obs.closed. apply omap_app. Qed.

Lemma closed_drew vs : Obs.closed (map Drew vs) = [].
Proof. induction vs as [|v vs IH]; [done | exact IH]. Qed.

Lemma closed_session path xs : Obs.closed (Obs.session path xs) = [path].
Proof.
  unfold Obs.session. simpl. rewrite closed_app. simpl.
  induction xs as [|x xs IH]; [done | exact IH].
Qed.

Lemma file_events_app t1 t2 :
  Obs.file_events (t1 ++ t2) = Obs.file_events t1 ++ Obs.file_events t2.
Proof. unfold Obs.file_events. apply filter_app. Qed.

Lemma file_events_drew vs : Obs.file_events (map Drew vs) = [].
Proof.
  induction vs as [|v vs IH]; [done |].
  unfold Obs.file_events in *. simpl. by rewrite filter_cons_False.
Qed.

Lemma file_events_session path xs :
  Obs.file_events (Obs.session path xs) = Obs.session path xs.
Proof.
  unfold Obs.file_events, Obs.session.
  rewrite filter_cons_True by done. f_equal.
  rewrite filter_app. f_equal.
  induction xs as [|x xs IH]; [done |].
  simpl. rewrite filter_cons_True by done. by rewrite IH.
Qed.

Lemma settled_app t1 t2 :
  Obs.settled t1 → Obs.settled t2 →
  Forall (λ p, p ∉ Obs.touched t2) (Obs.closed t1) →
  Obs.settled (t1 ++ t2).
Proof.
  induction t1 as [|ev t1 IH]; intros H1 H2 Hcross; [done |].
  destruct ev as [v|op|op|p|text]; simpl in *; try by apply IH.
  apply Forall_cons in Hcross as [Hp Hcross]. destruct H1 as [Hp1 H1].
  split; [| by apply IH].
  rewrite touched_app, elem_of_app. tauto.
Qed.

Lemma settled_drew vs : Obs.settled (map Drew vs).
Proof. induction vs as [|v vs IH]; [done | exact IH]. Qed.

Lemma settled_session path xs : Obs.settled (Obs.session path xs).
Proof.
  unfold Obs.session. simpl.
  induction xs as [|x xs IH]; simpl; [| exact IH].
  split; [apply not_elem_of_nil | done].
Qed.

Lemma settled_split t1 p t2 :
  Obs.settled (t1 ++ Closed p :: t2) → p ∉ Obs.touched t2.
Proof.
  induction t1 as [|ev t1 IH]; simpl; [tauto |].
  destruct ev; try exact IH. intros [_ Hs]. by apply IH.
Qed.

Lemma replay_untouched t (fs : gmap string string) p :
  p ∉ Obs.touched t → Obs.replay t fs !! p = fs !! p.
Proof.
  revert fs. induction t as [|ev t IH]; intros fs Hp; [done |].
  change (Obs.replay (ev :: t) fs) with (Obs.replay t (Obs.apply_event fs ev)).
  destruct ev as [v|[q|q data]|op|q|text]; simpl in Hp;
    try (rewrite IH by done; done).
  - apply not_elem_of_cons in Hp as [Hne Hp].
    rewrite IH by done. simpl. by rewrite lookup_insert_ne.
  - apply not_elem_of_cons in Hp as [Hne Hp].
    rewrite IH by done. simpl. by rewrite lookup_insert_ne.
  - apply not_elem_of_cons in Hp as [Hne Hp]. by rewrite IH.
Qed.

Lemma values_render xs :
  Forall (λ v, 0 ≤ v) xs → Obs.values (Obs.render xs) = Some xs.
Proof.
  intros Hxs. unfold Obs.values. rewrite LineFacts.lines_render.
  induction Hxs as [|x xs Hx _ IH]; [done |].
  simpl. rewrite HexFacts.parse_format_08x by done. simpl.
  by rewrite IH.
Qed.

End HistoryFacts.

(** ** Comprehensions over the generator *)

Section SampleFacts.
Import Py Ideal.
Context {G : Type} `{Random G}.

Lemma length_sample n f (g : G) : length (sample n f g).1 = n.
Proof.
  revert g. induction n as [|n IH]; intros g; [done |].
  simpl. destruct (f g) as [v g1]. specialize (IH g1).
  destruct (sample n f g1) as [vs g2]. simpl in *. by rewrite IH.
Qed.

Lemma Forall_sample (R : Z → Prop) n f (g : G) :
  (∀ g', R (f g').1) → Forall R (sample n f g).1.
Proof.
  intros Hf. revert g. induction n as [|n IH]; intros g; [by constructor |].
  simpl. pose proof (Hf g) as Hv. destruct (f g) as [v g1].
  specialize (IH g1). destruct (sample n f g1) as [vs g2].
  by constructor.
Qed.

(** A comprehension whose element draws a number and then computes from
    it without a further effect. *)
Lemma list_comp_draw_then (R : Z → Prop) (h : Z → Z) (k : Z → M G Z) n f
    (w : world G) :
  (∀ g, R (f g).1) →
  (∀ v, R v → k v = ret (h v)) →
  list_comp n (let! v := draw f in k v) w =
  (Ok (map h (sample n f (w_rng w)).1),
   World (sample n f (w_rng w)).2 (w_fs w) (w_open w) (w_stdout w)
         (w_trace w ++ map Drew (sample n f (w_rng w)).1)).
Proof.
  intros Hf Hk. revert w. induction n as [|n IH]; intros w.
  { destruct w. simpl. unfold ret. by rewrite app_nil_r. }
  simpl. unfold bind at 1 2. unfold draw at 1.
  pose proof (Hf (w_rng w)) as Hv.
  destruct (f (w_rng w)) as [v g1]. simpl in Hv.
  rewrite (Hk v Hv). unfold ret at 1. unfold bind at 1.
  rewrite IH. simpl.
  destruct (sample n f g1) as [vs g2]. simpl. unfold ret.
  by rewrite <- app_assoc.
Qed.

Lemma list_comp_draw n f (w : world G) :
  list_comp n (draw f) w =
  (Ok (sample n f (w_rng w)).1,
   World (sample n f (w_rng w)).2 (w_fs w) (w_open w) (w_stdout w)
         (w_trace w ++ map Drew (sample n f (w_rng w)).1)).
Proof.
  revert w. induction n as [|n IH]; intros w.
  { destruct w. simpl. unfold ret. by rewrite app_nil_r. }
  simpl. unfold bind at 1. unfold draw at 1.
  destruct (f (w_rng w)) as [v g1].
  unfold bind at 1. rewrite IH. simpl.
  destruct (sample n f g1) as [vs g2]. simpl. unfold ret.
  by rewrite <- app_assoc.
Qed.

(** An index that [randint(0, 63)] can return is in range for a list of
    64 elements. *)
Lemma getitem_in_range (l : list Z) i :
  length l = 64%nat → 0 ≤ i ≤ 63 → getitem (G:=G) l i = ret (pick l i).
Proof.
  intros Hlen Hi. unfold getitem, pick. rewrite Hlen.
  replace (i <? 0) with false by (symmetry; apply Z.ltb_ge; lia).
  replace (0 <=? i) with true by (symmetry; apply Z.leb_le; lia).
  replace (i <? Z.of_nat 64) with true by (symmetry; apply Z.ltb_lt; lia).
  simpl. destruct (l !! Z.to_nat i) as [x|] eqn:Hx; [done |].
  apply lookup_ge_None in Hx. lia.
Qed.

End SampleFacts.

(** ** Statements of the script *)

Section RunFacts.
Import Py Ideal.
Context {G : Type} `{Random G}.
Variable io_fails : list event → fs_op → bool.

Lemma for_write_outcome file xs (w : world G) old r w' :
  file ∈ w_open w →
  w_fs w !! file = Some old →
  for_ xs (λ number, write io_fails file (Testgen.fstring number);;; ret ()) w
    = (r, w') →
  match r with
  | Ok _ =>
      w' = World (w_rng w) (<[file := old +:+ Obs.render xs]> (w_fs w))
                 (w_open w) (w_stdout w)
                 (w_trace w ++
                    map (λ v, Did (Write file (Testgen.fstring v))) xs)
  | Raise e =>
      ∃ op, e = OSError op ∧ Obs.stops io_fails w w' op [file] ∧
            w_rng w' = w_rng w ∧ w_open w' = w_open w
  end.
Proof.
  revert w old r w'.
  induction xs as [|x xs IH]; intros w old r w' Hopen Hfs Hrun.
  { simpl in Hrun. unfold ret in Hrun. injection Hrun as <- <-.
    destruct w as [g fs op out t]. simpl in *.
    rewrite string_app_nil_r, insert_id, app_nil_r by done. done. }
  simpl for_ in Hrun. unfold bind at 1 2 in Hrun. unfold write at 1 in Hrun.
  rewrite decide_True in Hrun by done.
  destruct (io_fails (w_trace w) (Write file (Testgen.fstring x))) eqn:Hf.
  { injection Hrun as <- <-.
    eexists. split; [done |]. split; [| done].
    exists [], []. simpl.
    rewrite app_nil_r. repeat split; try done.
    repeat constructor. }
  unfold ret at 1 in Hrun.
  apply (IH _ (old +:+ Testgen.fstring x)) in Hrun;
    [| done | simpl; by rewrite Hfs; apply lookup_insert_eq].
  destruct r as [[]|e].
  { subst w'. simpl. f_equal.
    - rewrite insert_insert_eq. simpl Obs.render.
      by rewrite string_app_assoc.
    - by rewrite <- app_assoc. }
  destruct Hrun as (op & -> & Hstop & Hg & Ho). simpl in Hg, Ho.
  exists op. split; [done |]. split; [| done].
  destruct Hstop as (pre & post & Ht & Hpre & Hpost & Hio & Hps & Hfs' & Hout).
  simpl in Ht, Hio, Hfs', Hout.
  exists (Did (Write file (Testgen.fstring x)) :: pre), post.
  repeat split; try done.
  - by rewrite Ht, <- app_assoc.
  - by constructor.
  - by rewrite <- Hio, <- app_assoc.
  - simpl. constructor; [left | done].
Qed.

(** The [with] block that writes [xs] to [path], one line per value. *)
Lemma dump_outcome path xs (w : world G) r w' :
  with_open io_fails path (λ file,
    for_ xs (λ number,
      write io_fails file (Testgen.fstring number);;; ret ())) w = (r, w') →
  match r with
  | Ok _ =>
      w' = World (w_rng w) (<[path := Obs.render xs]> (w_fs w))
                 (w_open w ∖ {[path]}) (w_stdout w)
                 (w_trace w ++ Obs.session path xs)
  | Raise e =>
      ∃ op, e = OSError op ∧ Obs.stops io_fails w w' op [path] ∧
            w_rng w' = w_rng w
  end.
Proof.
  unfold with_open, bind at 1, open_w. intros Hrun.
  destruct (io_fails (w_trace w) (Open path)) eqn:Hf.
  { injection Hrun as <- <-.
    eexists. split; [done |]. split; [| done].
    exists [], []. simpl. rewrite app_nil_r.
    repeat split; try done; repeat constructor. }
  match type of Hrun with
  | (let '(_, _) := for_ ?l ?b ?w1 in _) = _ =>
      destruct (for_ l b w1) as [r1 w2] eqn:Hloop
  end.
  injection Hrun as <- <-.
  apply (for_write_outcome _ _ _ "") in Hloop;
    [| simpl; apply elem_of_union_l; by apply elem_of_singleton
     | simpl; apply lookup_insert_eq].
  destruct r1 as [[]|e].
  { subst w2. unfold close. simpl. f_equal.
    - by rewrite insert_insert_eq.
    - apply set_eq. intros p.
      rewrite !elem_of_difference, elem_of_union. tauto.
    - unfold Obs.session. by rewrite <- !app_assoc. }
  destruct Hloop as (op & -> & Hstop & Hg & Ho). simpl in Hg, Ho.
  exists op. split; [done |]. split; [| done].
  destruct Hstop as (pre & post & Ht & Hpre & Hpost & Hio & Hps & Hfs' & Hout).
  simpl in Ht, Hio, Hfs', Hout.
  exists (Did (Open path) :: pre), (post ++ [Closed path]).
  unfold close. simpl. repeat split; try done.
  - by rewrite Ht, <- !app_assoc.
  - by constructor.
  - apply Forall_app. split; [done | by repeat constructor].
  - by rewrite <- Hio, <- app_assoc.
  - constructor; [left | done].
Qed.

Lemma stops_after (w w1 w' : world G) d op ps qs :
  w_trace w1 = w_trace w ++ d →
  Forall (λ ev, Obs.is_failed ev = false) d →
  w_fs w1 = Obs.replay d (w_fs w) →
  w_stdout w1 = w_stdout w →
  Forall (λ p, p ∈ qs) (Obs.touched d) →
  (∀ p, p ∈ ps → p ∈ qs) →
  Obs.stops io_fails w1 w' op ps → Obs.stops io_fails w w' op qs.
Proof.
  intros Ht Hd Hfs Hout Hqs Hsub
    (pre & post & Ht' & Hpre & Hpost & Hio & Hps & Hfs' & Hout').
  exists (d ++ pre), post. repeat split.
  - by rewrite Ht', Ht, <- !app_assoc.
  - by apply Forall_app.
  - done.
  - by rewrite app_assoc, <- Ht.
  - rewrite <- app_assoc, touched_app. apply Forall_app. split; [done |].
    eapply Forall_impl; [exact Hps | exact Hsub].
  - by rewrite replay_app, <- Hfs.
  - by rewrite Hout'.
Qed.

Lemma stops_drew vs g g' fs o out t (w' : world G) op ps :
  Obs.stops io_fails (World g' fs o out (t ++ map Drew vs)) w' op ps →
  Obs.stops io_fails (World g fs o out t) w' op ps.
Proof.
  apply (stops_after _ _ _ (map Drew vs)); try done.
  - apply not_failed_drawn.
  - cbn [w_fs]. by rewrite replay_drawn.
  - rewrite touched_drawn. constructor.
Qed.

Lemma stops_dumped path xs g g' fs o out t (w' : world G) op ps :
  path ∈ ps →
  Obs.stops io_fails
    (World g' (<[path := Obs.render xs]> fs) (o ∖ {[path]}) out
           (t ++ Obs.session path xs))
    w' op ps →
  Obs.stops io_fails (World g fs o out t) w' op ps.
Proof.
  intros Hp. apply (stops_after _ _ _ (Obs.session path xs)); try done.
  - apply not_failed_session.
  - cbn [w_fs]. by rewrite replay_session.
  - eapply Forall_impl; [apply touched_session |]. by intros ? ->.
Qed.

Lemma stops_weaken (w w' : world G) op ps qs :
  (∀ p, p ∈ ps → p ∈ qs) →
  Obs.stops io_fails w w' op ps → Obs.stops io_fails w w' op qs.
Proof.
  intros Hsub. apply (stops_after _ _ _ []); try done.
  by rewrite app_nil_r.
Qed.

(** Projections of a world written out as a record. *)
Ltac world_fields := cbn [w_rng w_fs w_open w_stdout w_trace].
Tactic Notation "world_fields" "in" hyp(H) :=
  cbn [w_rng w_fs w_open w_stdout w_trace] in H.

(** Run the [with] block at the head of the script that is left, and name
    its outcome. *)
Ltac run_with_block Hrun :=
  unfold bind at 1;
  match goal with
  | |- context [with_open ?io ?p ?b ?w1] =>
      let r := fresh "r" in
      let w' := fresh "w'" in
      destruct (with_open io p b w1) as [r w'] eqn:Hrun;
      apply dump_outcome in Hrun; world_fields in Hrun;
      destruct r as [[]|?]; [subst w' |]
  end.

(** The outcome of a block that stopped is the outcome of the script. *)
Ltac block_stopped Hrun path_in_files :=
  let Hstop := fresh "Hstop" in
  let op := fresh "op" in
  destruct Hrun as (op & -> & Hstop & _);
  intros [= <- <-]; exists op; split; [done |];
  eapply (stops_weaken _ _ _ _ Obs.output_files) in Hstop;
    [| intros ? ->%list_elem_of_singleton; path_in_files];
  revert Hstop.

(** Every run of the script either reaches its end, in the world
    [Ideal.final], or stops at the first operation that the environment
    refuses, with that operation's error. *)
Lemma testgen_outcome (w : world G) r w' :
  Testgen.testgen io_fails w = (r, w') →
  match r with
  | Ok _ => w' = final w
  | Raise e =>
      ∃ op, e = OSError op ∧ Obs.stops io_fails w w' op Obs.output_files
  end.
Proof.
  destruct w as [g fs o out t].
  unfold Testgen.testgen, random_getrandbits, random_randint.
  unfold final, history, buff_gapn, gapn_raw, buff_addr, head_info, indices,
    pool, gapn_draw, addr_draw, index_draw, flow_draw.
  world_fields.
  (* the number of lines plays no part: keep it abstract *)
  generalize 2048%nat. intros n.
  (* lines 4 and 6: the pool and the entries resampled from it *)
  unfold bind at 1. rewrite list_comp_draw.
  unfold bind at 1.
  rewrite (list_comp_draw_then (λ i, 0 ≤ i ≤ 63)
             (pick (sample 64 (getrandbits 32) g).1)); cycle 1.
  { intros g'. by apply randint_range. }
  { intros v Hv. apply getitem_in_range; [apply length_sample | done]. }
  world_fields.
  (* lines 9 to 11: head_info.txt *)
  run_with_block Hrun1; cycle 1.
  { block_stopped Hrun1 ltac:(left). intros Hstop.
    do 2 eapply (stops_drew _ g) in Hstop. exact Hstop. }
  (* lines 14 to 18: buff_addr.txt *)
  unfold bind at 1. rewrite list_comp_draw. world_fields.
  run_with_block Hrun2; cycle 1.
  { block_stopped Hrun2 ltac:(right; left). intros Hstop.
    eapply (stops_drew _ g) in Hstop.
    eapply (stops_dumped _ _ g) in Hstop; [| left].
    do 2 eapply (stops_drew _ g) in Hstop. exact Hstop. }
  (* lines 21 to 25: buff_gapn.txt *)
  unfold bind at 1.
  rewrite (list_comp_draw_then (λ _, True) (λ v, v mod 32)); [| done | done].
  world_fields.
  run_with_block Hrun3; cycle 1.
  { block_stopped Hrun3 ltac:(right; right; left). intros Hstop.
    eapply (stops_drew _ g) in Hstop.
    eapply (stops_dumped _ _ g) in Hstop; [| right; left].
    eapply (stops_drew _ g) in Hstop.
    eapply (stops_dumped _ _ g) in Hstop; [| left].
    do 2 eapply (stops_drew _ g) in Hstop. exact Hstop. }
  (* line 27: the message *)
  unfold print. world_fields.
  intros [= <- <-]. f_equal. by rewrite <- !app_assoc.
Qed.

End RunFacts.

(** ** The full run *)

Section IdealFacts.
Import Py Ideal.
Context {G : Type} `{Random G}.

Lemma length_pool (g : G) : length (pool g) = 64%nat.
Proof. apply length_sample. Qed.

Lemma length_indices (g : G) : length (indices g) = 2048%nat.
Proof. apply length_sample. Qed.

Lemma length_head_info (g : G) : length (head_info g) = 2048%nat.
Proof. unfold head_info. rewrite length_map. apply length_indices. Qed.

Lemma length_buff_addr (g : G) : length (buff_addr g) = 2048%nat.
Proof. apply length_sample. Qed.

Lemma length_buff_gapn (g : G) : length (buff_gapn g) = 2048%nat.
Proof. unfold buff_gapn. rewrite length_map. apply length_sample. Qed.

Lemma pool_range (g : G) : Forall (λ v, 0 ≤ v < 2 ^ 32) (pool g).
Proof. apply Forall_sample. intros g'. by apply getrandbits_range. Qed.

Lemma indices_range (g : G) : Forall (λ i, 0 ≤ i ≤ 63) (indices g).
Proof. apply Forall_sample. intros g'. by apply randint_range. Qed.

Lemma buff_addr_range (g : G) : Forall (λ v, 0 ≤ v < 2 ^ 32) (buff_addr g).
Proof. apply Forall_sample. intros g'. by apply getrandbits_range. Qed.

Lemma buff_gapn_range (g : G) : Forall (λ v, 0 ≤ v < 32) (buff_gapn g).
Proof.
  unfold buff_gapn. apply Forall_map, Forall_true.
  intros v. simpl. by apply Z.mod_pos_bound.
Qed.

(** An index of [randint(0, 63)] picks an element of the pool. *)
Lemma pick_pool (g : G) i :
  0 ≤ i ≤ 63 → pool g !! Z.to_nat i = Some (pick (pool g) i).
Proof.
  intros Hi. unfold pick.
  destruct (pool g !! Z.to_nat i) as [x|] eqn:Hx; [done |].
  apply lookup_ge_None in Hx. rewrite length_pool in Hx. lia.
Qed.

Lemma head_info_in_pool (g : G) : Forall (λ v, v ∈ pool g) (head_info g).
Proof.
  unfold head_info. apply Forall_map.
  eapply Forall_impl; [apply indices_range |].
  intros i Hi. simpl. eapply list_elem_of_lookup_2. by apply pick_pool.
Qed.

Lemma head_info_range (g : G) : Forall (λ v, 0 ≤ v < 2 ^ 32) (head_info g).
Proof.
  eapply Forall_impl; [apply head_info_in_pool |].
  intros v Hv. simpl in Hv.
  by apply (proj1 (Forall_forall _ _) (pool_range g)).
Qed.

Lemma since_final (w : world G) : Obs.since w (final w) = history (w_rng w).
Proof. unfold Obs.since, final. simpl. by rewrite drop_app_length. Qed.

Lemma final_head_info (w : world G) :
  w_fs (final w) !! "head_info.txt" = Some (Obs.render (head_info (w_rng w))).
Proof.
  unfold final. cbn [w_fs].
  rewrite !lookup_insert_ne by done. apply lookup_insert_eq.
Qed.

Lemma final_buff_addr (w : world G) :
  w_fs (final w) !! "buff_addr.txt" = Some (Obs.render (buff_addr (w_rng w))).
Proof.
  unfold final. cbn [w_fs].
  rewrite lookup_insert_ne by done. apply lookup_insert_eq.
Qed.

Lemma final_buff_gapn (w : world G) :
  w_fs (final w) !! "buff_gapn.txt" = Some (Obs.render (buff_gapn (w_rng w))).
Proof. unfold final. cbn [w_fs]. apply lookup_insert_eq. Qed.

(** Each of the three files holds 2048 values of 32 bits. *)
Lemma final_files (w : world G) path :
  path ∈ Obs.output_files →
  ∃ vs, w_fs (final w) !! path = Some (Obs.render vs) ∧
        length vs = 2048%nat ∧ Forall (λ v, 0 ≤ v < 2 ^ 32) vs.
Proof.
  unfold Obs.output_files. rewrite !elem_of_cons, elem_of_nil.
  intros [-> | [-> | [-> | []]]].
  - exists (head_info (w_rng w)).
    split; [apply final_head_info |].
    split; [apply length_head_info | apply head_info_range].
  - exists (buff_addr (w_rng w)).
    split; [apply final_buff_addr |].
    split; [apply length_buff_addr | apply buff_addr_range].
  - exists (buff_gapn (w_rng w)).
    split; [apply final_buff_gapn |].
    split; [apply length_buff_gapn |].
    eapply Forall_impl; [apply buff_gapn_range |]. simpl. lia.
Qed.

(** The numbers a full run draws: the pool, the indices into it, the
    addresses, the raw gaps. *)
Lemma drawn_history (g : G) :
  Obs.drawn (history g) = pool g ++ indices g ++ buff_addr g ++ gapn_raw g.
Proof.
  unfold history.
  rewrite !drawn_app, !drawn_drew, !drawn_session. simpl.
  by rewrite app_nil_r.
Qed.

Lemma take_pool (g : G) : take 64 (Obs.drawn (history g)) = pool g.
Proof.
  rewrite drawn_history. apply take_app_length'. by rewrite length_pool.
Qed.

Lemma take_indices (g : G) :
  take 2048 (drop 64 (Obs.drawn (history g))) = indices g.
Proof.
  rewrite drawn_history, drop_app_length' by (by rewrite length_pool).
  apply take_app_length'. by rewrite length_indices.
Qed.

Lemma take_buff_addr (g : G) :
  take 2048 (drop 2048 (drop 64 (Obs.drawn (history g)))) = buff_addr g.
Proof.
  rewrite drawn_history, drop_app_length' by (by rewrite length_pool).
  rewrite drop_app_length' by (by rewrite length_indices).
  apply take_app_length'. by rewrite length_buff_addr.
Qed.

Lemma drop_gapn_raw (g : G) :
  drop 2048 (drop 2048 (drop 64 (Obs.drawn (history g)))) = gapn_raw g.
Proof.
  rewrite drawn_history, drop_app_length' by (by rewrite length_pool).
  rewrite drop_app_length' by (by rewrite length_indices).
  apply drop_app_length'. by rewrite length_buff_addr.
Qed.

Lemma touched_history (g : G) :
  Obs.touched (history g) =
  replicate (S (length (head_info g))) "head_info.txt" ++
  replicate (S (length (buff_addr g))) "buff_addr.txt" ++
  replicate (S (length (buff_gapn g))) "buff_gapn.txt".
Proof.
  unfold history.
  rewrite !touched_app, !touched_drawn, !touched_session_eq. simpl.
  by rewrite app_nil_r.
Qed.

(** The file operations of a full run: three sessions, one after the
    other. *)
Lemma file_events_history (g : G) :
  Obs.file_events (history g) =
  Obs.session "head_info.txt" (head_info g) ++
  Obs.session "buff_addr.txt" (buff_addr g) ++
  Obs.session "buff_gapn.txt" (buff_gapn g).
Proof.
  unfold history.
  rewrite !file_events_app, !file_events_drew, !file_events_session.
  simpl. unfold Obs.file_events. rewrite filter_cons_False by done.
  rewrite filter_nil. by rewrite app_nil_r.
Qed.

Lemma not_failed_history (g : G) :
  Forall (λ ev, Obs.is_failed ev = false) (history g).
Proof.
  unfold history.
  repeat (apply Forall_app; split);
    try apply not_failed_drawn; try apply not_failed_session.
  by repeat constructor.
Qed.

Lemma replay_history (g : G) (fs : gmap string string) :
  Obs.replay (history g) fs =
  <["buff_gapn.txt" := Obs.render (buff_gapn g)]>
    (<["buff_addr.txt" := Obs.render (buff_addr g)]>
       (<["head_info.txt" := Obs.render (head_info g)]> fs)).
Proof.
  unfold history.
  by rewrite !replay_app, !replay_drawn, !replay_session.
Qed.

Lemma settled_history (g : G) : Obs.settled (history g).
Proof.
  unfold history.
  repeat (apply settled_app;
          [first [apply settled_drew | apply settled_session] | |
           rewrite ?closed_drew, ?closed_session;
           rewrite ?touched_app, ?touched_drawn, ?touched_session_eq]).
  all: repeat constructor.
  all: repeat (rewrite elem_of_app || rewrite elem_of_cons ||
               rewrite elem_of_nil || rewrite elem_of_replicate).
  all: intuition discriminate.
Qed.

(** After a full run, the text of each output file is [file_text] of the
    numbers drawn. *)
Lemma final_file_text (w : world G) path :
  path ∈ Obs.output_files →
  w_fs (final w) !! path = file_text (Obs.drawn (history (w_rng w))) path.
Proof.
  unfold Obs.output_files, file_text.
  rewrite take_pool, take_indices, take_buff_addr, drop_gapn_raw.
  rewrite !elem_of_cons, elem_of_nil.
  intros [-> | [-> | [-> | []]]]; simpl.
  - apply final_head_info.
  - apply final_buff_addr.
  - apply final_buff_gapn.
Qed.

End IdealFacts.

(** ** The script *)

Section TestgenFacts.
Import Py Ideal.
Context {G : Type} `{Random G}.
Variable io_fails : list event → fs_op → bool.

(** A run that reaches the end of the script ends in [Ideal.final]. *)
Lemma testgen_ok_final (w w' : world G) :
  Testgen.testgen io_fails w = (Ok (), w') → w' = final w.
Proof. intros Hrun. by apply testgen_outcome in Hrun. Qed.

Lemma testgen_reaches_final (w : world G) :
  (Testgen.testgen io_fails w).1 = Ok () →
  (Testgen.testgen io_fails w).2 = final w.
Proof.
  destruct (Testgen.testgen io_fails w) as [r w'] eqn:Hrun.
  simpl. intros ->. by apply testgen_ok_final.
Qed.

(** Where the environment refuses nothing, the run reaches the end. *)
Lemma testgen_total (w : world G) :
  (∀ t op, io_fails t op = false) →
  Testgen.testgen io_fails w = (Ok (), final w).
Proof.
  intros Hnever.
  destruct (Testgen.testgen io_fails w) as [r w'] eqn:Hrun.
  apply testgen_outcome in Hrun. destruct r as [[]|e]; [by subst |].
  destruct Hrun as (op & _ & pre & post & _ & _ & _ & Hio & _).
  by rewrite Hnever in Hio.
Qed.

(** Whatever the environment does, a run only adds to the history, the
    file system is the replay of what it added, and it touches no path but
    the three output files. *)
Lemma testgen_effects (w : world G) :
  let w' := (Testgen.testgen io_fails w).2 in
  w_trace w' = w_trace w ++ Obs.since w w' ∧
  w_fs w' = Obs.replay (Obs.since w w') (w_fs w) ∧
  Forall (λ p, p ∈ Obs.output_files) (Obs.touched (Obs.since w w')).
Proof.
  destruct (Testgen.testgen io_fails w) as [r w'] eqn:Hrun. cbv zeta.
  cbn [snd]. apply testgen_outcome in Hrun. destruct r as [[]|e].
  { subst w'. rewrite since_final.
    split; [done |]. split; [by rewrite replay_history |].
    rewrite touched_history.
    repeat (apply Forall_app; split); apply Forall_replicate.
    - left.
    - right; left.
    - right; right; left. }
  destruct Hrun as (op & _ & pre & post & Ht & _ & Hpost & _ & Hps & Hfs & _).
  assert (Hsince : Obs.since w w' = pre ++ Failed op :: post).
  { unfold Obs.since. by rewrite Ht, drop_app_length. }
  rewrite Hsince. split; [done |].
  change (Failed op :: post) with ([Failed op] ++ post).
  rewrite app_assoc, replay_app, touched_app.
  rewrite (touched_only_closed post Hpost), app_nil_r.
  split; [| done].
  rewrite replay_app, Hfs. simpl.
  clear -Hpost. induction Hpost as [|ev post Hev _ IH]; [done |].
  by destruct ev.
Qed.

(** After a full run, the text of each output file is a function of the
    numbers the run drew. *)
Lemma ok_file_text (w : world G) path :
  (Testgen.testgen io_fails w).1 = Ok () →
  path ∈ Obs.output_files →
  w_fs (Testgen.testgen io_fails w).2 !! path =
  file_text (Obs.drawn (Obs.since w (Testgen.testgen io_fails w).2)) path.
Proof.
  intros Hok Hpath. rewrite (testgen_reaches_final _ Hok), since_final.
  by apply final_file_text.
Qed.

Lemma ok_drawn (w : world G) :
  (Testgen.testgen io_fails w).1 = Ok () →
  Obs.drawn (Obs.since w (Testgen.testgen io_fails w).2) =
  Obs.drawn (history (w_rng w)).
Proof.
  intros Hok. by rewrite (testgen_reaches_final _ Hok), since_final.
Qed.

(** Two full runs whose first entries of [head_info.txt] differ end with
    different texts in that file. *)
Lemma heads_differ (w1 w2 : world G) :
  head (head_info (w_rng w1)) ≠ head (head_info (w_rng w2)) →
  (∀ t op, io_fails t op = false) →
  w_fs (Testgen.testgen io_fails w1).2 !! "head_info.txt" ≠
  w_fs (Testgen.testgen io_fails w2).2 !! "head_info.txt".
Proof.
  intros Hne Hnever Heq. apply Hne. clear Hne.
  rewrite !testgen_total in Heq by done. cbn [snd] in Heq.
  rewrite !final_head_info in Heq. injection Heq as Heq.
  apply (f_equal Obs.values) in Heq.
  rewrite !values_render in Heq.
  - by injection Heq as ->.
  - eapply Forall_impl; [apply head_info_range |]. simpl. lia.
  - eapply Forall_impl; [apply head_info_range |]. simpl. lia.
Qed.

End TestgenFacts.

(** ** Runs of the concrete generator *)

(** With seed 2026 and an environment that refuses nothing, the script
    reaches its end. *)
Lemma lcg_run_ok :
  (Testgen.testgen Lcg.never_fails (Lcg.start 2026)).1 = Py.Ok ().
Proof. vm_compute. reflexivity. Qed.

(** So it does when [head_info.txt] is already there and the environment
    refuses a path that the script does not use. *)
Lemma lcg_rerun_ok :
  (Testgen.testgen Lcg.picky (Lcg.rerun 2026)).1 = Py.Ok ().
Proof. vm_compute. reflexivity. Qed.

(** * The claims *)

Section Claims.
Import Py Ideal.
Context {G : Type} `{Random G}.
Variable io_fails : list event → fs_op → bool.

(** C1. After a run that reaches the end of the script, each of
    [head_info.txt], [buff_addr.txt] and [buff_gapn.txt] splits into exactly
    2048 lines, every one ended by a line feed, and every line is the
    rendering of a value: there is no header line and nothing after the
    last line feed. *)
Theorem C1_each_file_has_2048_lines (w : world G) :
  (Testgen.testgen io_fails w).1 = Ok () →
  ∀ path, path ∈ Obs.output_files →
    ∃ text ls vs,
      w_fs (Testgen.testgen io_fails w).2 !! path = Some text ∧
      Obs.lines text = Some ls ∧
      length ls = 2048%nat ∧
      ls = map Hex.format_08x vs.
Proof.
  intros Hok path Hpath. rewrite (testgen_reaches_final _ _ Hok).
  destruct (final_files w path Hpath) as (vs & Hfs & Hlen & _).
  exists (Obs.render vs), (map Hex.format_08x vs), vs.
  split; [done |]. split; [apply LineFacts.lines_render |].
  split; [by rewrite length_map | done].
Qed.

(** C2. After a run that reaches the end of the script, every line of
    each of the three files is exactly eight lowercase hexadecimal
    characters: it renders a value below [2^32] with [08x]. *)
Theorem C2_every_line_is_8_lower_hex (w : world G) :
  (Testgen.testgen io_fails w).1 = Ok () →
  ∀ path, path ∈ Obs.output_files →
    ∃ text ls,
      w_fs (Testgen.testgen io_fails w).2 !! path = Some text ∧
      Obs.lines text = Some ls ∧
      Forall (λ l, Hex.is_hex8 l = true) ls.
Proof.
  intros Hok path Hpath. rewrite (testgen_reaches_final _ _ Hok).
  destruct (final_files w path Hpath) as (vs & Hfs & _ & Hrange).
  exists (Obs.render vs), (map Hex.format_08x vs).
  split; [done |]. split; [apply LineFacts.lines_render |].
  apply Forall_map. eapply Forall_impl; [exact Hrange |].
  intros v Hv. by apply HexFacts.format_08x_hex8.
Qed.

(** C3. After a run that reaches the end of the script, the integers that
    the lines of [buff_gapn.txt] encode all lie in [[0, 32)]: they are the
    last 2048 numbers the run drew, each of 32 bits, each reduced modulo
    32. *)
Theorem C3_buff_gapn_values_below_32 (w : world G) :
  (Testgen.testgen io_fails w).1 = Ok () →
  let w' := (Testgen.testgen io_fails w).2 in
  let raw := drop 2048 (drop 2048 (drop 64 (Obs.drawn (Obs.since w w')))) in
  ∃ text vs,
    w_fs w' !! "buff_gapn.txt" = Some text ∧
    Obs.values text = Some vs ∧
    Forall (λ v, 0 ≤ v < 32) vs ∧
    length raw = 2048%nat ∧
    Forall (λ d, 0 ≤ d < 2 ^ 32) raw ∧
    vs = map (λ d, d mod 32) raw.
Proof.
  intros Hok. rewrite (testgen_reaches_final _ _ Hok). cbv zeta.
  rewrite since_final, drop_gapn_raw.
  exists (Obs.render (buff_gapn (w_rng w))), (buff_gapn (w_rng w)).
  split; [apply final_buff_gapn |].
  split.
  { apply values_render. eapply Forall_impl; [apply buff_gapn_range |].
    simpl. lia. }
  split; [apply buff_gapn_range |].
  split; [apply length_sample |].
  split; [| done].
  apply Forall_sample. intros g'. by apply getrandbits_range.
Qed.

(** C4. After a run that reaches the end of the script, every line of
    [head_info.txt] encodes a member of the pool, the first 64 numbers the
    run drew; so the file holds at most 64 distinct values. Entry [k] of the
    file is the pool element at the index that draw [64 + k] returned, an
    index in [[0, 63]]. *)
Theorem C4_head_info_values_from_pool (w : world G) :
  (Testgen.testgen io_fails w).1 = Ok () →
  let w' := (Testgen.testgen io_fails w).2 in
  let random_flow := take 64 (Obs.drawn (Obs.since w w')) in
  let indices := take 2048 (drop 64 (Obs.drawn (Obs.since w w'))) in
  ∃ text vs,
    w_fs w' !! "head_info.txt" = Some text ∧
    Obs.values text = Some vs ∧
    length random_flow = 64%nat ∧
    length vs = 2048%nat ∧
    Forall (λ v, v ∈ random_flow) vs ∧
    (length (remove_dups vs) ≤ 64)%nat ∧
    Forall2 (λ i v, 0 ≤ i ≤ 63 ∧ random_flow !! Z.to_nat i = Some v)
            indices vs.
Proof.
  intros Hok. rewrite (testgen_reaches_final _ _ Hok). cbv zeta.
  rewrite since_final, take_pool, take_indices.
  exists (Obs.render (head_info (w_rng w))), (head_info (w_rng w)).
  split; [apply final_head_info |].
  split.
  { apply values_render. eapply Forall_impl; [apply head_info_range |].
    simpl. lia. }
  split; [apply length_pool |].
  split; [apply length_head_info |].
  split; [apply head_info_in_pool |].
  split.
  { rewrite <- (length_pool (w_rng w)). apply submseteq_length.
    apply NoDup_submseteq; [apply NoDup_remove_dups |].
    intros v Hv. rewrite elem_of_remove_dups in Hv.
    by apply (proj1 (Forall_forall _ _) (head_info_in_pool (w_rng w))). }
  unfold head_info. apply Forall2_fmap_r, Forall_Forall2_diag.
  eapply Forall_impl; [apply indices_range |].
  intros i Hi. simpl. split; [done | by apply pick_pool].
Qed.

(** C5. After a run that reaches the end of the script, the lines of
    [head_info.txt] and of [buff_addr.txt] encode integers in [[0, 2^32)],
    those of [buff_gapn.txt] integers in [[0, 32)], and in all three files
    a line is its value rendered with [08x], eight characters long. *)
Theorem C5_value_ranges (w : world G) :
  (Testgen.testgen io_fails w).1 = Ok () →
  let w' := (Testgen.testgen io_fails w).2 in
  let rendered text vs :=
    Obs.values text = Some vs ∧
    Obs.lines text = Some (map Hex.format_08x vs) ∧
    Forall (λ v, String.length (Hex.format_08x v) = 8%nat) vs in
  (∀ path, path ∈ ["head_info.txt"; "buff_addr.txt"] →
     ∃ text vs, w_fs w' !! path = Some text ∧ rendered text vs ∧
                Forall (λ v, 0 ≤ v < 2 ^ 32) vs) ∧
  (∃ text vs, w_fs w' !! "buff_gapn.txt" = Some text ∧ rendered text vs ∧
              Forall (λ v, 0 ≤ v < 32) vs).
Proof.
  intros Hok. rewrite (testgen_reaches_final _ _ Hok). cbv zeta.
  assert (Hrendered : ∀ vs, Forall (λ v, 0 ≤ v < 2 ^ 32) vs →
    Obs.values (Obs.render vs) = Some vs ∧
    Obs.lines (Obs.render vs) = Some (map Hex.format_08x vs) ∧
    Forall (λ v, String.length (Hex.format_08x v) = 8%nat) vs).
  { intros vs Hvs. split; [| split].
    - apply values_render. eapply Forall_impl; [exact Hvs |]. simpl. lia.
    - apply LineFacts.lines_render.
    - eapply Forall_impl; [exact Hvs |]. apply HexFacts.length_format_08x. }
  split.
  - intros path. rewrite !elem_of_cons, elem_of_nil.
    intros [-> | [-> | []]].
    + exists (Obs.render (head_info (w_rng w))), (head_info (w_rng w)).
      split; [apply final_head_info |].
      split; [apply Hrendered |]; apply head_info_range.
    + exists (Obs.render (buff_addr (w_rng w))), (buff_addr (w_rng w)).
      split; [apply final_buff_addr |].
      split; [apply Hrendered |]; apply buff_addr_range.
  - exists (Obs.render (buff_gapn (w_rng w))), (buff_gapn (w_rng w)).
    split; [apply final_buff_gapn |].
    split; [| apply buff_gapn_range].
    apply Hrendered. eapply Forall_impl; [apply buff_gapn_range |].
    simpl. lia.
Qed.

(** C7. In a run that reaches the end of the script, the file operations
    are three sessions one after the other: [head_info.txt] is opened,
    written and closed, then [buff_addr.txt], then [buff_gapn.txt]. The
    file system is the replay of the run's history, and the text a file has
    when it is closed is the text it has at the end: nothing that follows
    changes it. *)
Theorem C7_files_written_one_after_another (w : world G) :
  (Testgen.testgen io_fails w).1 = Ok () →
  let w' := (Testgen.testgen io_fails w).2 in
  let t := Obs.since w w' in
  (∃ v1 v2 v3,
     Obs.file_events t =
     Obs.session "head_info.txt" v1 ++
     Obs.session "buff_addr.txt" v2 ++
     Obs.session "buff_gapn.txt" v3) ∧
  w_fs w' = Obs.replay t (w_fs w) ∧
  ∀ t1 t2 path,
    t = t1 ++ Closed path :: t2 →
    Obs.replay (t1 ++ [Closed path]) (w_fs w) !! path = w_fs w' !! path.
Proof.
  intros Hok. cbv zeta.
  pose proof (testgen_effects io_fails w) as (_ & Hfs & _). cbv zeta in Hfs.
  rewrite Hfs. clear Hfs.
  rewrite (testgen_reaches_final _ _ Hok), since_final.
  split; [| split; [done |]].
  { eexists _, _, _. apply file_events_history. }
  intros t1 t2 path Ht.
  pose proof (settled_history (w_rng w)) as Hsettled.
  rewrite Ht in Hsettled |- *. apply settled_split in Hsettled.
  change (Closed path :: t2) with ([Closed path] ++ t2).
  rewrite (app_assoc t1), (replay_app (t1 ++ [Closed path])).
  symmetry. by apply replay_untouched.
Qed.

(** C8. In any run, if the environment refuses an [open] or a [write],
    the script ends with the error of that operation: the operation is the
    first one refused, after it the run only closes the file that the
    [with] statement holds, so it repeats nothing, opens and writes nothing
    more, and does not reach the final [print]. *)
Theorem C8_refused_operation_ends_the_script (w : world G) t1 op t2 :
  let r := (Testgen.testgen io_fails w).1 in
  let w' := (Testgen.testgen io_fails w).2 in
  w_trace w' = w_trace w ++ t1 ++ Failed op :: t2 →
  r = Raise (OSError op) ∧
  io_fails (w_trace w ++ t1) op = true ∧
  Forall (λ ev, Obs.is_failed ev = false) t1 ∧
  Forall (λ ev, Obs.is_closed ev = true) t2 ∧
  w_stdout w' = w_stdout w.
Proof.
  cbv zeta. destruct (Testgen.testgen io_fails w) as [r w'] eqn:Hrun.
  cbn [fst snd]. intros Ht.
  apply testgen_outcome in Hrun. destruct r as [[]|e].
  { exfalso. subst w'. unfold final in Ht. cbn [w_trace] in Ht.
    apply app_inv_head in Ht.
    pose proof (not_failed_history (w_rng w)) as Hnot.
    rewrite Ht in Hnot. apply Forall_app in Hnot as [_ Hnot].
    by apply Forall_cons in Hnot as [? _]. }
  destruct Hrun as (op' & -> & pre & post & Ht' & Hpre & Hpost & Hio & _ & _ & Hout).
  rewrite Ht' in Ht. apply app_inv_head in Ht. symmetry in Ht.
  apply (split_at_unique (λ ev, Obs.is_failed ev = true)) in Ht
    as (-> & [= ->] & ->); try done.
  - eapply Forall_impl; [exact Hpre |]. simpl. intros ev ->. done.
  - eapply Forall_impl; [exact Hpost |]. simpl. by intros [].
Qed.

(** C9. The indices of the resampling are in bounds. Line 4 of the script
    yields a list of 64 elements; every one of the 2048 indices that
    [randint(0, 63)] returns at line 6 is in [[0, 63]] and has an element
    of that list, so line 6 yields its 2048 entries without raising; and no
    run of the script ends with [IndexError]. *)
Theorem C9_pool_index_in_bounds (w : world G) :
  (∃ random_flow random_numbers w1 w2,
     list_comp 64 (random_getrandbits 32) w = (Ok random_flow, w1) ∧
     length random_flow = 64%nat ∧
     list_comp 2048
       (let! i := random_randint 0 63 in getitem random_flow i) w1
       = (Ok random_numbers, w2) ∧
     length (Obs.drawn (Obs.since w1 w2)) = 2048%nat ∧
     Forall2 (λ i v, 0 ≤ i ≤ 63 ∧ random_flow !! Z.to_nat i = Some v)
             (Obs.drawn (Obs.since w1 w2)) random_numbers) ∧
  (Testgen.testgen io_fails w).1 ≠ Raise IndexError.
Proof.
  split.
  - unfold random_getrandbits, random_randint.
    eexists _, _, _, _.
    split; [apply list_comp_draw |].
    split; [apply length_sample |].
    split.
    { apply (list_comp_draw_then (λ i, 0 ≤ i ≤ 63)
               (pick (sample 64 (getrandbits 32) (w_rng w)).1)).
      - intros g. by apply randint_range.
      - intros v Hv. apply getitem_in_range; [apply length_sample | done]. }
    unfold Obs.since. cbn [w_trace w_rng].
    rewrite drop_app_length, drawn_drew.
    split; [apply length_sample |].
    apply Forall2_fmap_r, Forall_Forall2_diag.
    eapply Forall_impl.
    { apply (Forall_sample (λ i, 0 ≤ i ≤ 63)).
      intros g. by apply randint_range. }
    intros i Hi. simpl. split; [done |].
    apply (pick_pool (w_rng w) i Hi).
  - destruct (Testgen.testgen io_fails w) as [r w'] eqn:Hrun.
    apply testgen_outcome in Hrun. simpl. intros ->.
    by destruct Hrun as (op & ? & _).
Qed.

(** C10. Whatever the environment does, a run opens and writes no path
    but [head_info.txt], [buff_addr.txt] and [buff_gapn.txt], and it leaves
    [random_numbers_hex.txt] as it was, absent if it was absent. A run that
    reaches the end of the script has opened each of the three, so the
    files that exist are those that existed plus these three, and its last
    act is to print the message, which names [random_numbers_hex.txt]. *)
Theorem C10_three_files_and_no_random_numbers_hex (w : world G) :
  let r := (Testgen.testgen io_fails w).1 in
  let w' := (Testgen.testgen io_fails w).2 in
  let t := Obs.since w w' in
  Forall (λ p, p ∈ Obs.output_files) (Obs.touched t) ∧
  ("random_numbers_hex.txt" ∉ Obs.touched t) ∧
  w_fs w' !! "random_numbers_hex.txt" = w_fs w !! "random_numbers_hex.txt" ∧
  (r = Ok () →
     (∀ p, p ∈ Obs.output_files → p ∈ Obs.touched t) ∧
     dom (w_fs w') = dom (w_fs w) ∪ list_to_set Obs.output_files ∧
     last t = Some (Printed Testgen.message) ∧
     w_stdout w' = w_stdout w +:+ Testgen.message +:+ line_feed) ∧
  ∃ before after,
    Testgen.message = before +:+ "random_numbers_hex.txt" +:+ after.
Proof.
  cbv zeta.
  pose proof (testgen_effects io_fails w) as (_ & Hfs & Htouched).
  cbv zeta in Hfs, Htouched.
  assert (Hnot : "random_numbers_hex.txt" ∉
            Obs.touched (Obs.since w (Testgen.testgen io_fails w).2)).
  { intros Hin. apply (proj1 (Forall_forall _ _) Htouched) in Hin.
    unfold Obs.output_files in Hin.
    rewrite !elem_of_cons, elem_of_nil in Hin.
    by destruct Hin as [? | [? | [? | []]]]. }
  split; [done |]. split; [done |].
  split; [by rewrite Hfs, replay_untouched |].
  split.
  - intros Hok. rewrite (testgen_reaches_final _ _ Hok), since_final.
    split; [| split; [| split]].
    + intros p. rewrite touched_history. unfold Obs.output_files.
      rewrite !elem_of_cons, elem_of_nil.
      intros [-> | [-> | [-> | []]]].
      * apply elem_of_app. left. simpl. left.
      * apply elem_of_app. right. apply elem_of_app. left. simpl. left.
      * apply elem_of_app. right. apply elem_of_app. right. simpl. left.
    + unfold final, Obs.output_files. cbn [w_fs].
      rewrite !dom_insert_L. simpl.
      apply set_eq. intros p.
      rewrite !elem_of_union, !elem_of_singleton, elem_of_empty. tauto.
    + unfold history. rewrite !last_app. done.
    + done.
  - by exists "随机数已生成并以16进制格式写入到", "文件中。".
Qed.

End Claims.


(** C6. The three files are a function of the numbers drawn. Two runs that
    reach the end of the script and drew the same numbers in the same
    order, whatever the generators, the environments and the worlds they
    started in, end with the same text in each of the three files. Two runs
    of one generator from the same state draw the same numbers. And the
    text does depend on the state: there are two seeds of the concrete
    generator whose runs differ in [head_info.txt]. *)
Theorem C6_output_determined_by_draws :
  (∀ (G1 G2 : Type) (R1 : Py.Random G1) (R2 : Py.Random G2) io1 io2
     (w1 : Py.world G1) (w2 : Py.world G2),
     (Testgen.testgen io1 w1).1 = Py.Ok () →
     (Testgen.testgen io2 w2).1 = Py.Ok () →
     Obs.drawn (Obs.since w1 (Testgen.testgen io1 w1).2) =
     Obs.drawn (Obs.since w2 (Testgen.testgen io2 w2).2) →
     ∀ path, path ∈ Obs.output_files →
       Py.w_fs (Testgen.testgen io1 w1).2 !! path =
       Py.w_fs (Testgen.testgen io2 w2).2 !! path) ∧
  (∀ (G : Type) (R : Py.Random G) io1 io2 (w1 w2 : Py.world G),
     (Testgen.testgen io1 w1).1 = Py.Ok () →
     (Testgen.testgen io2 w2).1 = Py.Ok () →
     Py.w_rng w1 = Py.w_rng w2 →
     Obs.drawn (Obs.since w1 (Testgen.testgen io1 w1).2) =
     Obs.drawn (Obs.since w2 (Testgen.testgen io2 w2).2)) ∧
  (∃ seed1 seed2,
     Py.w_fs (Testgen.testgen Lcg.never_fails (Lcg.start seed1)).2
       !! "head_info.txt" ≠
     Py.w_fs (Testgen.testgen Lcg.never_fails (Lcg.start seed2)).2
       !! "head_info.txt").
Proof.
  split; [| split].
  - intros G1 G2 R1 R2 io1 io2 w1 w2 Hok1 Hok2 Hdrawn path Hpath.
    rewrite (ok_file_text io1 w1 path Hok1 Hpath).
    rewrite (ok_file_text io2 w2 path Hok2 Hpath).
    by rewrite Hdrawn.
  - intros G R io1 io2 w1 w2 Hok1 Hok2 Hrng.
    rewrite (ok_drawn io1 w1 Hok1), (ok_drawn io2 w2 Hok2).
    by rewrite Hrng.
  - exists 1, 2.
    apply heads_differ; [| done].
    vm_compute. discriminate.
Qed.

(** ** The claims at concrete runs *)

Lemma C1_witness :
  (Testgen.testgen Lcg.never_fails (Lcg.start 2026)).1 = Py.Ok () ∧
  ∀ path, path ∈ Obs.output_files →
    ∃ text ls vs,
      Py.w_fs (Testgen.testgen Lcg.never_fails (Lcg.start 2026)).2 !! path
        = Some text ∧
      Obs.lines text = Some ls ∧
      length ls = 2048%nat ∧
      ls = map Hex.format_08x vs.
Proof.
  split; [exact lcg_run_ok |].
  exact (C1_each_file_has_2048_lines Lcg.never_fails (Lcg.start 2026)
           lcg_run_ok).
Defined.

Lemma C2_witness :
  (Testgen.testgen Lcg.never_fails (Lcg.start 2026)).1 = Py.Ok () ∧
  ∀ path, path ∈ Obs.output_files →
    ∃ text ls,
      Py.w_fs (Testgen.testgen Lcg.never_fails (Lcg.start 2026)).2 !! path
        = Some text ∧
      Obs.lines text = Some ls ∧
      Forall (λ l, Hex.is_hex8 l = true) ls.
Proof.
  split; [exact lcg_run_ok |].
  exact (C2_every_line_is_8_lower_hex Lcg.never_fails (Lcg.start 2026)
           lcg_run_ok).
Defined.

Lemma C3_witness :
  (Testgen.testgen Lcg.never_fails (Lcg.start 2026)).1 = Py.Ok () ∧
  ∃ text vs,
    Py.w_fs (Testgen.testgen Lcg.never_fails (Lcg.start 2026)).2
      !! "buff_gapn.txt" = Some text ∧
    Obs.values text = Some vs ∧
    Forall (λ v, 0 ≤ v < 32) vs.
Proof.
  split; [exact lcg_run_ok |].
  destruct (C3_buff_gapn_values_below_32 Lcg.never_fails (Lcg.start 2026)
              lcg_run_ok) as (text & vs & Hfs & Hvs & Hrange & _).
  exists text, vs. split; [exact Hfs |]. split; [exact Hvs | exact Hrange].
Defined.

Lemma C4_witness :
  (Testgen.testgen Lcg.never_fails (Lcg.start 2026)).1 = Py.Ok () ∧
  ∃ text vs,
    Py.w_fs (Testgen.testgen Lcg.never_fails (Lcg.start 2026)).2
      !! "head_info.txt" = Some text ∧
    Obs.values text = Some vs ∧
    (length (remove_dups vs) ≤ 64)%nat.
Proof.
  split; [exact lcg_run_ok |].
  destruct (C4_head_info_values_from_pool Lcg.never_fails (Lcg.start 2026)
              lcg_run_ok) as (text & vs & Hfs & Hvs & _ & _ & _ & Hdups & _).
  exists text, vs. split; [exact Hfs |]. split; [exact Hvs | exact Hdups].
Defined.

Lemma C5_witness :
  (Testgen.testgen Lcg.never_fails (Lcg.start 2026)).1 = Py.Ok () ∧
  ∃ text vs,
    Py.w_fs (Testgen.testgen Lcg.never_fails (Lcg.start 2026)).2
      !! "buff_addr.txt" = Some text ∧
    Obs.values text = Some vs ∧
    Forall (λ v, 0 ≤ v < 2 ^ 32) vs.
Proof.
  split; [exact lcg_run_ok |].
  destruct (C5_value_ranges Lcg.never_fails (Lcg.start 2026) lcg_run_ok)
    as [Hwide _].
  destruct (Hwide "buff_addr.txt") as (text & vs & Hfs & [Hvs _] & Hrange).
  { right. left. }
  exists text, vs. split; [exact Hfs |]. split; [exact Hvs | exact Hrange].
Defined.

Lemma C6_witness :
  (Testgen.testgen Lcg.never_fails (Lcg.start 2026)).1 = Py.Ok () ∧
  (Testgen.testgen Lcg.picky (Lcg.rerun 2026)).1 = Py.Ok () ∧
  Py.w_rng (Lcg.start 2026) = Py.w_rng (Lcg.rerun 2026) ∧
  ∀ path, path ∈ Obs.output_files →
    Py.w_fs (Testgen.testgen Lcg.never_fails (Lcg.start 2026)).2 !! path =
    Py.w_fs (Testgen.testgen Lcg.picky (Lcg.rerun 2026)).2 !! path.
Proof.
  split; [exact lcg_run_ok |]. split; [exact lcg_rerun_ok |].
  split; [reflexivity |].
  destruct C6_output_determined_by_draws as (Hsame & Hseed & _).
  apply (Hsame Z Z Lcg.random Lcg.random Lcg.never_fails Lcg.picky
           (Lcg.start 2026) (Lcg.rerun 2026) lcg_run_ok lcg_rerun_ok).
  apply (Hseed Z Lcg.random Lcg.never_fails Lcg.picky
           (Lcg.start 2026) (Lcg.rerun 2026) lcg_run_ok lcg_rerun_ok).
  reflexivity.
Defined.

Lemma C7_witness :
  (Testgen.testgen Lcg.never_fails (Lcg.start 2026)).1 = Py.Ok () ∧
  ∃ v1 v2 v3,
    Obs.file_events
      (Obs.since (Lcg.start 2026)
         (Testgen.testgen Lcg.never_fails (Lcg.start 2026)).2) =
    Obs.session "head_info.txt" v1 ++
    Obs.session "buff_addr.txt" v2 ++
    Obs.session "buff_gapn.txt" v3.
Proof.
  split; [exact lcg_run_ok |].
  destruct (C7_files_written_one_after_another Lcg.never_fails
              (Lcg.start 2026) lcg_run_ok) as [Hsessions _].
  exact Hsessions.
Defined.

Lemma lcg_read_only_trace :
  Py.w_trace (Testgen.testgen Lcg.read_only (Lcg.start 2026)).2 =
  Py.w_trace (Lcg.start 2026) ++
  (map Py.Drew (Ideal.pool 2026) ++ map Py.Drew (Ideal.indices 2026) ++
   [Py.Did (Py.Open "head_info.txt")]) ++
  Py.Failed
    (Py.Write "head_info.txt"
       (Testgen.fstring (default 0 (head (Ideal.head_info 2026))))) ::
  [Py.Closed "head_info.txt"].
Proof. vm_compute. reflexivity. Qed.

Lemma C8_witness :
  Py.w_trace (Testgen.testgen Lcg.read_only (Lcg.start 2026)).2 =
  Py.w_trace (Lcg.start 2026) ++
  (map Py.Drew (Ideal.pool 2026) ++ map Py.Drew (Ideal.indices 2026) ++
   [Py.Did (Py.Open "head_info.txt")]) ++
  Py.Failed
    (Py.Write "head_info.txt"
       (Testgen.fstring (default 0 (head (Ideal.head_info 2026))))) ::
  [Py.Closed "head_info.txt"] ∧
  (Testgen.testgen Lcg.read_only (Lcg.start 2026)).1 =
  Py.Raise
    (Py.OSError
       (Py.Write "head_info.txt"
          (Testgen.fstring (default 0 (head (Ideal.head_info 2026)))))).
Proof.
  split; [exact lcg_read_only_trace |].
  destruct (C8_refused_operation_ends_the_script Lcg.read_only
              (Lcg.start 2026) _ _ _ lcg_read_only_trace) as [Hraise _].
  exact Hraise.
Defined.

Lemma C10_witness :
  (Testgen.testgen Lcg.never_fails (Lcg.start 2026)).1 = Py.Ok () ∧
  dom (Py.w_fs (Testgen.testgen Lcg.never_fails (Lcg.start 2026)).2) =
  dom (Py.w_fs (Lcg.start 2026)) ∪ list_to_set Obs.output_files.
Proof.
  split; [exact lcg_run_ok |].
  destruct (C10_three_files_and_no_random_numbers_hex Lcg.never_fails
              (Lcg.start 2026)) as (_ & _ & _ & Hend & _).
  destruct (Hend lcg_run_ok) as (_ & Hdom & _).
  exact Hdom.
Defined.

(** * Further properties of the script *)

(** ** The f-string of lines 11, 18 and 25 *)

Module FormatFacts.
Import Hex.

Lemma ndigits_ge_9 n : 2 ^ 32 ≤ n → (9 ≤ ndigits n)%nat.
Proof.
  intros Hn. unfold ndigits.
  assert (32 ≤ Z.log2 n) by (apply Z.log2_le_pow2; lia).
  assert (8 ≤ Z.log2 n / 4) by (apply Z.div_le_lower_bound; lia).
  lia.
Qed.

(** A number whose digits fit in [d] places, written in [S d] places,
    starts with a zero. *)
Lemma fixed_leading_zero d n :
  0 ≤ n < 16 ^ Z.of_nat d → fixed (S d) n = String "0" (fixed d n).
Proof.
  revert n. induction d as [|d IH]; intros n Hn.
  { assert (n = 0) as -> by (simpl in Hn; lia). reflexivity. }
  change (fixed (S (S d)) n)
    with (fixed (S d) (n / 16) +:+ String (digit (n mod 16)) "").
  rewrite IH; [by rewrite string_app_cons |].
  rewrite Nat2Z.inj_succ, Z.pow_succ_r in Hn by lia.
  split; [apply Z.div_pos; lia | apply Z.div_lt_upper_bound; lia].
Qed.

Lemma fixed_pad k d n :
  0 ≤ n < 16 ^ Z.of_nat d → fixed (k + d) n = zeros k +:+ fixed d n.
Proof.
  intros Hn. induction k as [|k IH]; [done |].
  change (S k + d)%nat with (S (k + d)).
  rewrite fixed_leading_zero, IH; [done |].
  split; [lia |]. eapply Z.lt_le_trans; [apply Hn |].
  apply Z.pow_le_mono_r; lia.
Qed.

(** For a value of 32 bits the zero fill and the digits together are the
    eight digits of the value. *)
Lemma format_08x_fixed n : 0 ≤ n < 2 ^ 32 → format_08x n = fixed 8 n.
Proof.
  intros Hn. rewrite HexFacts.format_08x_nonneg by lia.
  pose proof (HexFacts.ndigits_le_8 n Hn) as Hle.
  replace 8%nat with ((8 - ndigits n) + ndigits n)%nat at 2 by lia.
  rewrite fixed_pad; [done |].
  split; [lia | apply HexFacts.lt_pow16_ndigits; lia].
Qed.

Lemma get_app_l (s1 s2 : string) i :
  (i < String.length s1)%nat → String.get i (s1 +:+ s2) = String.get i s1.
Proof. intros Hi. symmetry. by apply append_correct1. Qed.

Lemma get_app_r (s1 s2 : string) i :
  String.get (i + String.length s1) (s1 +:+ s2) = String.get i s2.
Proof. symmetry. apply append_correct2. Qed.

Lemma get_fixed w n i :
  (i < w)%nat →
  String.get i (fixed w n) =
  Some (digit ((n / 16 ^ Z.of_nat (w - 1 - i)) mod 16)).
Proof.
  revert n i. induction w as [|w IH]; intros n i Hi; [lia |].
  change (fixed (S w) n)
    with (fixed w (n / 16) +:+ String (digit (n mod 16)) "").
  destruct (decide (i = w)) as [-> | Hne].
  - pose proof (get_app_r (fixed w (n / 16))
                  (String (digit (n mod 16)) "") 0) as Hget.
    rewrite HexFacts.length_fixed in Hget. simpl in Hget. rewrite Hget.
    replace (S w - 1 - w)%nat with 0%nat by lia. simpl.
    by rewrite Z.div_1_r.
  - rewrite get_app_l by (rewrite HexFacts.length_fixed; lia).
    rewrite IH by lia. do 3 f_equal.
    replace (S w - 1 - i)%nat with (S (w - 1 - i)) by lia.
    rewrite Nat2Z.inj_succ, Z.pow_succ_r by lia.
    rewrite Z.div_div by (try apply Z.pow_pos_nonneg; lia). done.
Qed.

End FormatFacts.

(** X1. A line matches [[0-9a-f]{8}] exactly when the number rendered is
    in [[0, 2^32)]: a negative number gets a sign, a number from [2^32] on
    gets more than eight digits, and [08x] cuts nothing off. *)
Theorem X1_hex8_exactly_for_32_bits (n : Z) :
  Hex.is_hex8 (Hex.format_08x n) = true ↔ 0 ≤ n < 2 ^ 32.
Proof.
  split; [| apply HexFacts.format_08x_hex8].
  intros Hhex. unfold Hex.is_hex8 in Hhex.
  apply andb_true_iff in Hhex as [Hlen Hchars].
  apply Nat.eqb_eq in Hlen.
  destruct (decide (n < 0)) as [Hneg | Hnonneg].
  { exfalso. unfold Hex.format_08x in Hchars.
    replace (n <? 0) with true in Hchars by (symmetry; apply Z.ltb_lt; lia).
    rewrite string_app_cons in Hchars. simpl in Hchars. done. }
  split; [lia |].
  destruct (decide (n < 2 ^ 32)) as [Hlt | Hge]; [done | exfalso].
  rewrite HexFacts.format_08x_nonneg in Hlen by lia.
  rewrite string_length_app, HexFacts.length_zeros, HexFacts.length_fixed
    in Hlen.
  pose proof (FormatFacts.ndigits_ge_9 n). lia.
Qed.

(** X2. The line of a value of 32 bits holds its eight hexadecimal digits,
    most significant first: character [i] is the digit of bits
    [4 * (7 - i)] to [4 * (7 - i) + 3]. *)
Theorem X2_line_holds_the_nibbles (n : Z) (i : nat) :
  0 ≤ n < 2 ^ 32 →
  (i < 8)%nat →
  String.get i (Hex.format_08x n) =
  Some (Hex.digit ((n / 16 ^ Z.of_nat (7 - i)) mod 16)).
Proof.
  intros Hn Hi. rewrite FormatFacts.format_08x_fixed by done.
  by rewrite FormatFacts.get_fixed.
Qed.

(** X3. Reading a rendered number back gives the number, for every
    non-negative integer, also one wider than 32 bits; so two different
    numbers never give the same line. *)
Theorem X3_line_reads_back (n m : Z) :
  0 ≤ n → 0 ≤ m →
  Hex.parse (Hex.format_08x n) = Some n ∧
  (Hex.format_08x n = Hex.format_08x m → n = m).
Proof.
  intros Hn Hm. split; [by apply HexFacts.parse_format_08x |].
  intros Heq. apply (f_equal Hex.parse) in Heq.
  rewrite !HexFacts.parse_format_08x in Heq by done. by injection Heq.
Qed.

(** ** Runs that stop at a refused operation *)

Section StoppedFacts.
Import Py Ideal Partial.
Context {G : Type} `{Random G}.
Variable io_fails : list event → fs_op → bool.

(** A write loop that raises has written the first [k] entries and was
    refused entry [k]. *)
Lemma for_write_stopped file xs (w : world G) old e w' :
  file ∈ w_open w →
  w_fs w !! file = Some old →
  for_ xs (λ number, write io_fails file (Testgen.fstring number);;; ret ()) w
    = (Raise e, w') →
  ∃ k x,
    xs !! k = Some x ∧
    e = OSError (Write file (Testgen.fstring x)) ∧
    io_fails
      (w_trace w ++ map (λ v, Did (Write file (Testgen.fstring v))) (take k xs))
      (Write file (Testgen.fstring x)) = true ∧
    w' = World (w_rng w) (<[file := old +:+ Obs.render (take k xs)]> (w_fs w))
               (w_open w) (w_stdout w)
               (w_trace w ++
                  map (λ v, Did (Write file (Testgen.fstring v))) (take k xs) ++
                  [Failed (Write file (Testgen.fstring x))]).
Proof.
  revert w old. induction xs as [|x xs IH]; intros w old Hopen Hfs Hrun.
  { discriminate Hrun. }
  simpl for_ in Hrun. unfold bind at 1 2 in Hrun. unfold write at 1 in Hrun.
  rewrite decide_True in Hrun by done.
  destruct (io_fails (w_trace w) (Write file (Testgen.fstring x))) eqn:Hf.
  { injection Hrun as <- <-. exists 0%nat, x. simpl.
    rewrite app_nil_r, string_app_nil_r, insert_id by done.
    by destruct w. }
  unfold ret at 1 in Hrun.
  apply (IH _ (old +:+ Testgen.fstring x)) in Hrun;
    [| done | simpl; by rewrite Hfs; apply lookup_insert_eq].
  destruct Hrun as (k & y & Hy & -> & Hio & ->).
  exists (S k), y. cbn [w_rng w_fs w_open w_stdout w_trace] in *.
  split; [done |]. split; [done |].
  split; [by rewrite <- Hio, <- app_assoc |].
  f_equal.
  - rewrite insert_insert_eq. simpl. by rewrite string_app_assoc.
  - by rewrite <- app_assoc.
Qed.

(** A [with] block that raises was refused its [open], or was refused the
    [write] of entry [k] after writing the entries before it, and then
    closed the file. *)
Lemma dump_stopped path xs (w : world G) e w' :
  with_open io_fails path (λ file,
    for_ xs (λ number,
      write io_fails file (Testgen.fstring number);;; ret ())) w
    = (Raise e, w') →
  (e = OSError (Open path) ∧
   io_fails (w_trace w) (Open path) = true ∧
   w' = log (Failed (Open path)) w) ∨
  (∃ k x,
     xs !! k = Some x ∧
     e = OSError (Write path (Testgen.fstring x)) ∧
     io_fails
       (w_trace w ++ Did (Open path) ::
          map (λ v, Did (Write path (Testgen.fstring v))) (take k xs))
       (Write path (Testgen.fstring x)) = true ∧
     w' = World (w_rng w) (<[path := Obs.render (take k xs)]> (w_fs w))
                (w_open w ∖ {[path]}) (w_stdout w)
                (w_trace w ++ Did (Open path) ::
                   map (λ v, Did (Write path (Testgen.fstring v))) (take k xs) ++
                   [Failed (Write path (Testgen.fstring x)); Closed path])).
Proof.
  unfold with_open, bind at 1, open_w. intros Hrun.
  destruct (io_fails (w_trace w) (Open path)) eqn:Hf.
  { injection Hrun as <- <-. by left. }
  right.
  match type of Hrun with
  | (let '(_, _) := for_ ?l ?b ?w1 in _) = _ =>
      destruct (for_ l b w1) as [r1 w2] eqn:Hloop
  end.
  injection Hrun as -> <-.
  apply (for_write_stopped _ _ _ "") in Hloop;
    [| simpl; apply elem_of_union_l; by apply elem_of_singleton
     | simpl; apply lookup_insert_eq].
  destruct Hloop as (k & x & Hx & -> & Hio & ->).
  exists k, x. cbn [w_rng w_fs w_open w_stdout w_trace] in *.
  split; [done |]. split; [done |].
  split; [by rewrite <- Hio, <- app_assoc |].
  unfold close. cbn [w_rng w_fs w_open w_stdout w_trace]. f_equal.
  - by rewrite insert_insert_eq.
  - apply set_eq. intros p.
    rewrite !elem_of_difference, elem_of_union. tauto.
  - by rewrite <- !app_assoc.
Qed.

Lemma replay_open_writes path ys (fs : gmap string string) :
  Obs.replay
    (Did (Open path) ::
     map (λ v, Did (Write path (Testgen.fstring v))) ys) fs =
  <[path := Obs.render ys]> fs.
Proof.
  change (Obs.replay (?ev :: ?t) fs)
    with (Obs.replay t (Obs.apply_event fs ev)).
  simpl Obs.apply_event.
  rewrite (replay_writes _ _ _ "") by apply lookup_insert_eq.
  by rewrite insert_insert_eq.
Qed.

Lemma closed_open_writes path ys :
  Obs.closed
    (Did (Open path) ::
     map (λ v, Did (Write path (Testgen.fstring v))) ys) = [].
Proof. simpl. induction ys as [|y ys IH]; [done | exact IH]. Qed.

Ltac world_fields := cbn [w_rng w_fs w_open w_stdout w_trace].
Tactic Notation "world_fields" "in" hyp(H) :=
  cbn [w_rng w_fs w_open w_stdout w_trace] in H.

(** Lists of events, brought to one shape. *)
Ltac flatten_history :=
  repeat (rewrite <- app_assoc || rewrite <- app_comm_cons).

(** The facts about a stopped run, once the cut is chosen. *)
Ltac stopped_at c Hx Hio :=
  exists c; cbv beta iota zeta; world_fields;
  try rewrite Hx; cbn [default from_option id];
  split; [first [exact I | by eapply lookup_lt_Some] |];
  split; [done |];
  split; [revert Hio; world_fields; flatten_history; by intros -> |];
  split; [unfold log; world_fields; by flatten_history |];
  split;
    [unfold log; world_fields;
     rewrite ?replay_app, ?replay_open_writes, ?replay_drawn, ?replay_session;
     done |];
  split; [| done];
  unfold log; world_fields;
  rewrite ?closed_app, ?closed_open_writes, ?closed_drew, ?closed_session;
  apply set_eq; intros ?; simpl;
  rewrite ?elem_of_difference, ?elem_of_union, ?elem_of_singleton,
    ?elem_of_empty;
  tauto.

(** A run that raises stopped at a cut within the script: its history is
    the history up to the cut, the refusal, and the closing of the file; the
    file system is the replay of the history up to the cut. *)
Lemma testgen_stopped (w : world G) e w' :
  Testgen.testgen io_fails w = (Raise e, w') →
  ∃ c,
    within (w_rng w) c ∧
    e = OSError (cut_op (w_rng w) c) ∧
    io_fails (w_trace w ++ upto (w_rng w) c) (cut_op (w_rng w) c) = true ∧
    w_trace w' =
      w_trace w ++ upto (w_rng w) c ++
      Failed (cut_op (w_rng w) c) :: wind_up c ∧
    w_fs w' = Obs.replay (upto (w_rng w) c) (w_fs w) ∧
    w_open w' =
      w_open w ∖ list_to_set (Obs.closed (upto (w_rng w) c ++ wind_up c)) ∧
    w_stdout w' = w_stdout w.
Proof.
  destruct w as [g fs o out t].
  unfold Testgen.testgen, random_getrandbits, random_randint.
  unfold within, cut_op, upto, lead, wind_up, block_values, block_path.
  unfold buff_gapn, gapn_raw, buff_addr, head_info, indices,
    pool, gapn_draw, addr_draw, index_draw, flow_draw.
  world_fields.
  generalize 2048%nat. intros n.
  unfold bind at 1. rewrite list_comp_draw.
  unfold bind at 1.
  rewrite (list_comp_draw_then (λ i, 0 ≤ i ≤ 63)
             (pick (sample 64 (getrandbits 32) g).1)); cycle 1.
  { intros g'. by apply randint_range. }
  { intros v Hv. apply getitem_in_range; [apply length_sample | done]. }
  world_fields.
  (* head_info.txt *)
  unfold bind at 1.
  match goal with
  | |- context [with_open ?io ?p ?b ?w1] =>
      destruct (with_open io p b w1) as [[[]|e1] w1'] eqn:Hrun1
  end; cycle 1.
  { intros [= <- <-]. apply dump_stopped in Hrun1.
    destruct Hrun1 as [(-> & Hio & ->) | (k & x & Hx & -> & Hio & ->)].
    - stopped_at (AtOpen Head) Hio Hio.
    - stopped_at (AtWrite Head k) Hx Hio. }
  apply dump_outcome in Hrun1. world_fields in Hrun1. subst w1'.
  (* buff_addr.txt *)
  unfold bind at 1. rewrite list_comp_draw. world_fields.
  unfold bind at 1.
  match goal with
  | |- context [with_open ?io ?p ?b ?w2] =>
      destruct (with_open io p b w2) as [[[]|e2] w2'] eqn:Hrun2
  end; cycle 1.
  { intros [= <- <-]. apply dump_stopped in Hrun2.
    destruct Hrun2 as [(-> & Hio & ->) | (k & x & Hx & -> & Hio & ->)].
    - stopped_at (AtOpen Addr) Hio Hio.
    - stopped_at (AtWrite Addr k) Hx Hio. }
  apply dump_outcome in Hrun2. world_fields in Hrun2. subst w2'.
  (* buff_gapn.txt *)
  unfold bind at 1.
  rewrite (list_comp_draw_then (λ _, True) (λ v, v mod 32)); [| done | done].
  world_fields. unfold bind at 1.
  match goal with
  | |- context [with_open ?io ?p ?b ?w3] =>
      destruct (with_open io p b w3) as [[[]|e3] w3'] eqn:Hrun3
  end; cycle 1.
  { intros [= <- <-]. apply dump_stopped in Hrun3.
    destruct Hrun3 as [(-> & Hio & ->) | (k & x & Hx & -> & Hio & ->)].
    - stopped_at (AtOpen Gapn) Hio Hio.
    - stopped_at (AtWrite Gapn k) Hx Hio. }
  (* the final print does not raise *)
  unfold print. discriminate.
Qed.

End StoppedFacts.

(** ** The history up to a cut *)

Section PartialFacts.
Import Py Ideal Partial.
Context {G : Type} `{Random G}.

Lemma history_block (g : G) b :
  ∃ tail,
    history g =
    lead g b ++ Obs.session (block_path b) (block_values g b) ++ tail.
Proof.
  unfold history, lead. destruct b; cbn [block_path block_values];
    eexists; rewrite <- ?app_assoc; reflexivity.
Qed.

Lemma session_split path vs k x :
  vs !! k = Some x →
  Obs.session path vs =
  (Did (Open path) ::
   map (λ v, Did (Write path (Testgen.fstring v))) (take k vs)) ++
  Did (Write path (Testgen.fstring x)) ::
  map (λ v, Did (Write path (Testgen.fstring v))) (drop (S k) vs) ++
  [Closed path].
Proof.
  intros Hx. unfold Obs.session.
  rewrite <- (take_drop_middle vs k x Hx) at 1.
  rewrite map_app. simpl. by rewrite <- app_assoc.
Qed.

(** Up to its cut, a stopped run has the history of the full run. *)
Lemma upto_prefix (g : G) c :
  within g c →
  ∃ rest, history g = upto g c ++ Did (cut_op g c) :: rest.
Proof.
  intros Hc. destruct (history_block g (cut_block c)) as [tail Hh].
  destruct c as [b | b k]; cbn [cut_block upto cut_op within] in *.
  - eexists. rewrite Hh. unfold Obs.session. reflexivity.
  - apply lookup_lt_is_Some_2 in Hc as [x Hx].
    eexists. rewrite Hh, Hx, (session_split _ _ _ _ Hx).
    cbn [default from_option id]. rewrite <- !app_assoc. reflexivity.
Qed.

Lemma opened_app t1 t2 : opened (t1 ++ t2) = opened t1 ++ opened t2.
Proof. unfold opened. apply omap_app. Qed.

Lemma opened_drew vs : opened (map Drew vs) = [].
Proof. induction vs as [|v vs IH]; [done | exact IH]. Qed.

Lemma opened_open_writes path ys :
  opened
    (Did (Open path) ::
     map (λ v, Did (Write path (Testgen.fstring v))) ys) = [path].
Proof. simpl. f_equal. induction ys as [|y ys IH]; [done | exact IH]. Qed.

Lemma opened_session path xs : opened (Obs.session path xs) = [path].
Proof.
  unfold Obs.session.
  rewrite app_comm_cons, opened_app, opened_open_writes. done.
Qed.

(** In the history up to a cut and its winding up, the files opened are
    the files closed. *)
Lemma opened_upto (g : G) c :
  opened (upto g c ++ Failed (cut_op g c) :: wind_up c) =
  Obs.closed (upto g c ++ wind_up c).
Proof.
  change (Failed (cut_op g c) :: wind_up c)
    with ([Failed (cut_op g c)] ++ wind_up c).
  destruct c as [[] | [] k]; cbn [upto lead wind_up block_path];
    rewrite ?opened_app, ?opened_drew, ?opened_session, ?opened_open_writes;
    rewrite ?closed_app, ?closed_drew, ?closed_session, ?closed_open_writes;
    reflexivity.
Qed.

Lemma opened_history (g : G) :
  opened (history g) = Obs.closed (history g).
Proof.
  unfold history.
  rewrite ?opened_app, ?opened_drew, ?opened_session.
  rewrite ?closed_app, ?closed_drew, ?closed_session. reflexivity.
Qed.


End PartialFacts.

(** ** The write loop and the files *)

Section Extras.
Import Py Ideal Partial.
Context {G : Type} `{Random G}.
Variable io_fails : list event → fs_op → bool.

Lemma length_fstring v :
  0 ≤ v < 2 ^ 32 → String.length (Testgen.fstring v) = 9%nat.
Proof.
  intros Hv. unfold Testgen.fstring.
  by rewrite string_length_app, HexFacts.length_format_08x.
Qed.

Lemma length_render vs :
  Forall (λ v, 0 ≤ v < 2 ^ 32) vs →
  String.length (Obs.render vs) = (length vs * 9)%nat.
Proof.
  induction 1 as [|v vs Hv _ IH]; [done |].
  cbn [Obs.render foldr length].
  rewrite string_length_app, length_fstring by done.
  fold (Obs.render vs). rewrite IH. lia.
Qed.

(** The two characters that carry a value below 32. *)
Lemma format_08x_below_32 v :
  0 ≤ v < 32 →
  Hex.format_08x v =
  "000000" +:+ String (Hex.digit (v / 16)) (String (Hex.digit (v mod 16)) "").
Proof.
  intros Hv. rewrite FormatFacts.format_08x_fixed by lia.
  change (Hex.fixed 8 v)
    with ((Hex.fixed 6 (v / 16 / 16) +:+
           String (Hex.digit ((v / 16) mod 16)) "") +:+
          String (Hex.digit (v mod 16)) "").
  assert (0 ≤ v / 16 < 2) as Hhi
    by (split; [apply Z.div_pos | apply Z.div_lt_upper_bound]; lia).
  replace (v / 16 / 16) with 0 by (symmetry; apply Z.div_small; lia).
  rewrite (Z.mod_small (v / 16)) by lia.
  by rewrite string_app_assoc.
Qed.


(** X5. Whatever the environment does, a run leaves every path other than
    the three output files as it was: the same text, or absent if it was
    absent. *)
Theorem X5_other_files_untouched (w : world G) q :
  q ∉ Obs.output_files →
  w_fs (Testgen.testgen io_fails w).2 !! q = w_fs w !! q.
Proof.
  intros Hq.
  pose proof (testgen_effects io_fails w) as (_ & Hfs & Htouched).
  cbv zeta in Hfs, Htouched. rewrite Hfs.
  apply replay_untouched. intros Hin. apply Hq.
  by apply (proj1 (Forall_forall _ _) Htouched).
Qed.

(** X6. After a run that reaches the end of the script, each of the three
    files is exactly 2048 times 9 characters long: eight digits and a line
    feed for every entry. *)
Theorem X6_file_size (w : world G) :
  (Testgen.testgen io_fails w).1 = Ok () →
  ∀ path, path ∈ Obs.output_files →
    ∃ text,
      w_fs (Testgen.testgen io_fails w).2 !! path = Some text ∧
      String.length text = (2048 * 9)%nat.
Proof.
  intros Hok path Hpath. rewrite (testgen_reaches_final _ _ Hok).
  destruct (final_files w path Hpath) as (vs & Hfs & Hlen & Hrange).
  exists (Obs.render vs). split; [done |].
  by rewrite length_render, Hlen.
Qed.

(** X7. After a run that reaches the end of the script, reading
    [buff_addr.txt] back gives, in order, the 2048 numbers that the run
    drew at line 14, after the 64 of the pool and the 2048 indices. *)
Theorem X7_buff_addr_reads_back_the_draws (w : world G) :
  (Testgen.testgen io_fails w).1 = Ok () →
  let w' := (Testgen.testgen io_fails w).2 in
  ∃ text,
    w_fs w' !! "buff_addr.txt" = Some text ∧
    Obs.values text =
    Some (take 2048 (drop 2048 (drop 64 (Obs.drawn (Obs.since w w'))))).
Proof.
  intros Hok. rewrite (testgen_reaches_final _ _ Hok). cbv zeta.
  rewrite since_final, take_buff_addr.
  exists (Obs.render (buff_addr (w_rng w))).
  split; [apply final_buff_addr |].
  apply values_render. eapply Forall_impl; [apply buff_addr_range |].
  simpl. lia.
Qed.

(** X8. After a run that reaches the end of the script, every line of
    [buff_gapn.txt] is six zeros and two digits, the first of them [0] or
    [1]: only the low five bits of a gap are ever set. *)
Theorem X8_buff_gapn_line_shape (w : world G) :
  (Testgen.testgen io_fails w).1 = Ok () →
  ∃ text ls,
    w_fs (Testgen.testgen io_fails w).2 !! "buff_gapn.txt" = Some text ∧
    Obs.lines text = Some ls ∧
    Forall (λ l, ∃ c1 c2,
              l = "000000" +:+ String c1 (String c2 "") ∧
              (c1 = "0" ∨ c1 = "1")%char ∧
              Hex.is_lower_hex c2 = true) ls.
Proof.
  intros Hok. rewrite (testgen_reaches_final _ _ Hok).
  exists (Obs.render (buff_gapn (w_rng w))),
         (map Hex.format_08x (buff_gapn (w_rng w))).
  split; [apply final_buff_gapn |].
  split; [apply LineFacts.lines_render |].
  apply Forall_map. eapply Forall_impl; [apply buff_gapn_range |].
  intros v Hv. simpl in Hv |- *.
  exists (Hex.digit (v / 16)), (Hex.digit (v mod 16)).
  split; [by apply format_08x_below_32 |].
  split.
  - assert (v / 16 = 0 ∨ v / 16 = 1) as [-> | ->]; [| by left | by right].
    assert (0 ≤ v / 16 < 2)
      by (split; [apply Z.div_pos | apply Z.div_lt_upper_bound]; lia).
    lia.
  - apply HexFacts.digit_lower_hex. apply Z.mod_pos_bound. lia.
Qed.

End Extras.

(** ** Runs that a refusal stops *)

Section StoppedExtras.
Import Py Ideal Partial.
Context {G : Type} `{Random G}.
Variable io_fails : list event → fs_op → bool.

Lemma since_app (w w' : world G) t :
  w_trace w' = w_trace w ++ t → Obs.since w w' = t.
Proof. intros Ht. unfold Obs.since. by rewrite Ht, drop_app_length. Qed.


(** X9. Whatever the environment does, a run first makes the 64 + 2048
    draws of lines 4 and 6 and only then touches a file, and the first
    operation on a file is the [open] of [head_info.txt], done or
    refused. *)
Theorem X9_draws_come_before_the_first_open (w : world G) :
  ∃ ds ev rest,
    Obs.since w (Testgen.testgen io_fails w).2 = map Drew ds ++ ev :: rest ∧
    length ds = (64 + 2048)%nat ∧
    (ev = Did (Open "head_info.txt") ∨ ev = Failed (Open "head_info.txt")).
Proof.
  assert (Hlen : length (pool (w_rng w) ++ indices (w_rng w))
                 = (64 + 2048)%nat)
    by (by rewrite length_app, length_pool, length_indices).
  destruct (Testgen.testgen io_fails w) as [[[]|e] w'] eqn:Hrun; cbn [snd].
  - apply testgen_outcome in Hrun. subst w'. rewrite since_final.
    exists (pool (w_rng w) ++ indices (w_rng w)). eexists _, _.
    split; [| split; [exact Hlen | by left]].
    unfold history, Obs.session. rewrite map_app, <- !app_assoc.
    reflexivity.
  - apply testgen_stopped in Hrun.
    destruct Hrun as (c & _ & _ & _ & Ht & _).
    rewrite (since_app _ _ _ Ht).
    destruct c as [[] | [] k];
      cbn [upto lead cut_op wind_up block_path];
      exists (pool (w_rng w) ++ indices (w_rng w)); eexists _, _;
      (split;
       [unfold Obs.session; rewrite map_app, <- ?app_assoc; reflexivity |]);
      (split; [exact Hlen |]);
      first [by left | by right].
Qed.

(** X10. A run that a refusal stops has done, up to the refused
    operation, what a run from the same world that reaches the end does: the
    history of the complete run starts with the history of the stopped one,
    and goes on with the operation that was refused. After the refusal the
    stopped run only closes the file, if the refused operation was a
    [write]. *)
Theorem X10_stopped_run_is_a_prefix
    (io_ok : list event → fs_op → bool) (w : world G) e :
  (Testgen.testgen io_fails w).1 = Raise e →
  (Testgen.testgen io_ok w).1 = Ok () →
  ∃ pre op rest,
    e = OSError op ∧
    Obs.since w (Testgen.testgen io_fails w).2 =
      pre ++ Failed op ::
      match op with Open _ => [] | Write p _ => [Closed p] end ∧
    Obs.since w (Testgen.testgen io_ok w).2 = pre ++ Did op :: rest.
Proof.
  intros Hraise Hok.
  rewrite (testgen_reaches_final _ _ Hok), since_final.
  destruct (Testgen.testgen io_fails w) as [r w'] eqn:Hrun.
  cbn [fst snd] in *. subst r. apply testgen_stopped in Hrun.
  destruct Hrun as (c & Hc & -> & _ & Ht & _).
  destruct (upto_prefix (w_rng w) c Hc) as [rest Hrest].
  exists (upto (w_rng w) c), (cut_op (w_rng w) c), rest.
  split; [done |]. split; [| done].
  rewrite (since_app _ _ _ Ht). by destruct c.
Qed.




(** X12. Whatever the environment does, the files a run opened are the
    files it closed, in the same order, and at the end exactly these are
    not open: no refusal makes the script leave a file open. *)
Theorem X12_every_opened_file_is_closed (w : world G) :
  let w' := (Testgen.testgen io_fails w).2 in
  let t := Obs.since w w' in
  opened t = Obs.closed t ∧
  w_open w' = w_open w ∖ list_to_set (Obs.closed t).
Proof.
  cbv zeta.
  destruct (Testgen.testgen io_fails w) as [[[]|e] w'] eqn:Hrun; cbn [snd].
  - apply testgen_outcome in Hrun. subst w'. rewrite since_final.
    split; [apply opened_history |].
    unfold final, history. cbn [w_open].
    rewrite ?closed_app, ?closed_drew, ?closed_session.
    apply set_eq. intros p. simpl.
    rewrite ?elem_of_difference, ?elem_of_union, ?elem_of_singleton,
      ?elem_of_empty.
    tauto.
  - apply testgen_stopped in Hrun.
    destruct Hrun as (c & _ & _ & _ & Ht & _ & Hopen & _).
    rewrite (since_app _ _ _ Ht), Hopen.
    assert (Hclosed :
      Obs.closed
        (upto (w_rng w) c ++ Failed (cut_op (w_rng w) c) :: wind_up c) =
      Obs.closed (upto (w_rng w) c ++ wind_up c)).
    { by rewrite !closed_app. }
    rewrite Hclosed. split; [apply opened_upto | done].
Qed.


End StoppedExtras.

(** ** The further properties at concrete inputs *)

(** With seed 2026 and an environment that refuses every [write], the
    script stops at the first entry of [head_info.txt]. *)
Lemma lcg_read_only_raises :
  (Testgen.testgen Lcg.read_only (Lcg.start 2026)).1 =
  Py.Raise
    (Py.OSError
       (Py.Write "head_info.txt"
          (Testgen.fstring (default 0 (head (Ideal.head_info 2026)))))).
Proof. vm_compute. reflexivity. Qed.

Lemma X2_witness :
  0 ≤ 3735928559 < 2 ^ 32 ∧ (2 < 8)%nat ∧
  String.get 2 (Hex.format_08x 3735928559) =
  Some (Hex.digit ((3735928559 / 16 ^ Z.of_nat (7 - 2)) mod 16)).
Proof.
  split; [lia |]. split; [lia |].
  apply (X2_line_holds_the_nibbles 3735928559 2); lia.
Defined.

Lemma X3_witness :
  0 ≤ 4294967296 ∧ 0 ≤ 31 ∧
  Hex.parse (Hex.format_08x 4294967296) = Some 4294967296 ∧
  (Hex.format_08x 4294967296 = Hex.format_08x 31 → 4294967296 = 31).
Proof.
  split; [lia |]. split; [lia |].
  apply (X3_line_reads_back 4294967296 31); lia.
Defined.


Lemma X5_witness :
  ("random_numbers_hex.txt" ∉ Obs.output_files) ∧
  Py.w_fs (Testgen.testgen Lcg.read_only (Lcg.start 2026)).2
    !! "random_numbers_hex.txt" =
  Py.w_fs (Lcg.start 2026) !! "random_numbers_hex.txt".
Proof.
  assert (Hnot : "random_numbers_hex.txt" ∉ Obs.output_files).
  { apply (bool_decide_unpack _). vm_compute. exact I. }
  split; [exact Hnot |].
  exact (X5_other_files_untouched Lcg.read_only (Lcg.start 2026)
           "random_numbers_hex.txt" Hnot).
Defined.

Lemma X6_witness :
  (Testgen.testgen Lcg.never_fails (Lcg.start 2026)).1 = Py.Ok () ∧
  ∀ path, path ∈ Obs.output_files →
    ∃ text,
      Py.w_fs (Testgen.testgen Lcg.never_fails (Lcg.start 2026)).2 !! path
        = Some text ∧
      String.length text = (2048 * 9)%nat.
Proof.
  split; [exact lcg_run_ok |].
  exact (X6_file_size Lcg.never_fails (Lcg.start 2026) lcg_run_ok).
Defined.

Lemma X7_witness :
  (Testgen.testgen Lcg.never_fails (Lcg.start 2026)).1 = Py.Ok () ∧
  let w' := (Testgen.testgen Lcg.never_fails (Lcg.start 2026)).2 in
  ∃ text,
    Py.w_fs w' !! "buff_addr.txt" = Some text ∧
    Obs.values text =
    Some (take 2048
            (drop 2048 (drop 64 (Obs.drawn (Obs.since (Lcg.start 2026) w'))))).
Proof.
  split; [exact lcg_run_ok |].
  exact (X7_buff_addr_reads_back_the_draws Lcg.never_fails
           (Lcg.start 2026) lcg_run_ok).
Defined.

Lemma X8_witness :
  (Testgen.testgen Lcg.never_fails (Lcg.start 2026)).1 = Py.Ok () ∧
  ∃ text ls,
    Py.w_fs (Testgen.testgen Lcg.never_fails (Lcg.start 2026)).2
      !! "buff_gapn.txt" = Some text ∧
    Obs.lines text = Some ls ∧
    Forall (λ l, ∃ c1 c2,
              l = "000000" +:+ String c1 (String c2 "") ∧
              (c1 = "0" ∨ c1 = "1")%char ∧
              Hex.is_lower_hex c2 = true) ls.
Proof.
  split; [exact lcg_run_ok |].
  exact (X8_buff_gapn_line_shape Lcg.never_fails (Lcg.start 2026)
           lcg_run_ok).
Defined.

Lemma X10_witness :
  (Testgen.testgen Lcg.read_only (Lcg.start 2026)).1 =
  Py.Raise
    (Py.OSError
       (Py.Write "head_info.txt"
          (Testgen.fstring (default 0 (head (Ideal.head_info 2026)))))) ∧
  (Testgen.testgen Lcg.never_fails (Lcg.start 2026)).1 = Py.Ok () ∧
  ∃ pre op rest,
    Obs.since (Lcg.start 2026)
      (Testgen.testgen Lcg.never_fails (Lcg.start 2026)).2 =
    pre ++ Py.Did op :: rest.
Proof.
  split; [exact lcg_read_only_raises |]. split; [exact lcg_run_ok |].
  destruct (X10_stopped_run_is_a_prefix Lcg.read_only Lcg.never_fails
              (Lcg.start 2026) _ lcg_read_only_raises lcg_run_ok)
    as (pre & op & rest & _ & _ & Hfull).
  exists pre, op, rest. exact Hfull.
Defined.



